(** * ShuiTingQi backend: file-backed document store (src/backend/server.js)

    A shallow embedding of the Express handlers of [server.js]: the JSON
    files under [data/], the helpers [readJson], [writeJson], [logOp],
    [incRequest], and the route callbacks for routes, POIs, attractions,
    the hydrophone snapshot and the hydrophone history.

    [src/backend/db.js] (an nedb variant of the log and the counters) is
    not required by [server.js] and is not embedded. *)

From Stdlib Require Import PrimFloat SpecFloat FloatOps FloatAxioms.
From Stdlib Require Import List String Ascii Bool Arith NArith ZArith Lia.
From Stdlib Require Import Permutation Sorted OrdersEx RelationClasses.
Import ListNotations.
Local Open Scope list_scope.
Local Open Scope string_scope.

#[local] Set Warnings "-register-all,-inexact-float".

Set Implicit Arguments.

(** ** JSON values *)

(** A JavaScript value other than [undefined], as [JSON.parse] builds it
    and a callback holds it.  A number is an IEEE 754 double: the parsed
    request body holds [infinity] for the literal [1e400] and [0] for
    [1e-400]. *)
Inductive json : Type :=
| JNull
| JBool (b : bool)
| JNum (x : float)
| JStr (s : string)
| JArr (items : list json)
| JObj (fields : list (string * json)).

(** A JavaScript value that may be [undefined]: [None] is [undefined]. *)
Definition value := option json.

(** A document: the own properties of a plain object, in insertion order. *)
Definition doc := list (string * json).

(** [JSON.parse(JSON.stringify(v))]: what a reply carries and a file
    holds of a value.  A number that is not finite is written as [null]
    and negative zero as [0]; a finite double is written so that it reads
    back as itself. *)
Fixpoint stored_form (v : json) : json :=
  match v with
  | JNum x =>
      if PrimFloat.is_nan x || PrimFloat.is_infinity x then JNull
      else if PrimFloat.eqb x 0 then JNum 0 else JNum x
  | JArr items => JArr (map stored_form items)
  | JObj fields =>
      JObj (map (fun kv => match kv with (k, x) => (k, stored_form x) end)
                fields)
  | JNull | JBool _ | JStr _ => v
  end.

(** The same for the properties of an object. *)
Definition as_stored (d : doc) : doc :=
  map (fun kv => match kv with (k, x) => (k, stored_form x) end) d.

(** [d[k]] *)
Fixpoint get (d : doc) (k : string) : value :=
  match d with
  | [] => None
  | (k', v) :: d' => if String.eqb k' k then Some v else get d' k
  end.

(** [d[k] = v]: an existing key keeps its position, a new key goes last. *)
Fixpoint set (d : doc) (k : string) (v : json) : doc :=
  match d with
  | [] => [(k, v)]
  | (k', v') :: d' =>
      if String.eqb k' k then (k', v) :: d' else (k', v') :: set d' k v
  end.

(** An object literal [{ k1: e1, ..., kn: en }] as [JSON.stringify] and
    property reads see it: a property whose value is [undefined] is
    omitted by [JSON.stringify] and reads as [undefined] either way.  Every
    literal built by a handler is only read back or serialised. *)
Fixpoint obj_lit (l : list (string * value)) : doc :=
  match l with
  | [] => []
  | (k, Some v) :: l' => (k, v) :: obj_lit l'
  | (_, None) :: l' => obj_lit l'
  end.

(** [body.k] on the parsed request body: only a plain object has the
    properties the handlers read ([express.json] hands over objects and
    arrays only, and an array has none of these keys). *)
Definition prop (body : json) (k : string) : value :=
  match body with
  | JObj d => get d k
  | _ => None
  end.

(** ToBoolean *)
Definition truthy (v : value) : bool :=
  match v with
  | None => false
  | Some JNull => false
  | Some (JBool b) => b
  | Some (JNum x) => negb (PrimFloat.eqb x 0 || PrimFloat.is_nan x)
  | Some (JStr s) => negb (String.eqb s "")
  | Some (JArr _) => true
  | Some (JObj _) => true
  end.

(** [typeof v === 'number'] *)
Definition is_number (v : value) : bool :=
  match v with Some (JNum _) => true | _ => false end.


(** [typeof v === 'string'] *)
Definition is_string (v : value) : bool :=
  match v with Some (JStr _) => true | _ => false end.

(** [Array.isArray(v)] *)
Definition is_array (v : value) : bool :=
  match v with Some (JArr _) => true | _ => false end.

(** [v || d] with a defined right operand *)
Definition or_else (v : value) (d : json) : json :=
  match v with
  | Some x => if truthy v then x else d
  | None => d
  end.

(** Destructuring default [{ k = d }]: used when the property is [undefined]. *)
Definition default (v : value) (d : json) : json :=
  match v with Some x => x | None => d end.

(** [x.id === id] for the string [id] of the route parameter *)
Definition has_id (id : string) (x : doc) : bool :=
  match get x "id" with
  | Some (JStr s) => String.eqb s id
  | _ => false
  end.

(** [list.findIndex(p)], [None] for -1 *)
Fixpoint findIndex (A : Type) (p : A -> bool) (l : list A) : option nat :=
  match l with
  | [] => None
  | x :: l' => if p x then Some O else option_map S (findIndex p l')
  end.

(** [list[idx] = next] for an index inside the array *)
Fixpoint set_at (A : Type) (idx : nat) (next : A) (l : list A) : list A :=
  match l, idx with
  | [], _ => []
  | _ :: l', O => next :: l'
  | x :: l', S i => x :: set_at i next l'
  end.

(** ** Clock and identifiers *)

Definition digit36 (d : N) : ascii :=
  if (d <? 10)%N then ascii_of_N (48 + d) else ascii_of_N (87 + d).

(** Base-36 digits of [n], least significant first. *)
Fixpoint digits36 (fuel : nat) (n : N) : list N :=
  match fuel with
  | O => []
  | S f =>
      (n mod 36)%N :: (if (n / 36 =? 0)%N then [] else digits36 f (n / 36)%N)
  end.

(** [n.toString(36)] for a non-negative integer [n] *)
Definition toString36 (n : N) : string :=
  string_of_list_ascii
    (rev (map digit36 (digits36 (S (N.to_nat (N.log2 n))) n))).

(** [n] in decimal, zero-padded to [width] digits. *)
Fixpoint pad10 (width : nat) (n : N) (acc : string) : string :=
  match width with
  | O => acc
  | S w => pad10 w (n / 10)%N (String (ascii_of_N (48 + n mod 10)) acc)
  end.

(** [new Date(ms).toISOString()] for [ms] milliseconds since the epoch. *)
Definition toISOString (ms : N) : string :=
  let days := (ms / 86400000)%N in
  let rest := (ms mod 86400000)%N in
  let z := (days + 719468)%N in
  let era := (z / 146097)%N in
  let doe := (z mod 146097)%N in
  let yoe := ((doe - doe / 1460 + doe / 36524 - doe / 146096) / 365)%N in
  let doy := (doe - (365 * yoe + yoe / 4 - yoe / 100))%N in
  let mp := ((5 * doy + 2) / 153)%N in
  let d := (doy - (153 * mp + 2) / 5 + 1)%N in
  let m := if (mp <? 10)%N then (mp + 3)%N else (mp - 9)%N in
  let y := (yoe + era * 400 + (if (m <=? 2)%N then 1 else 0))%N in
  let year := if (y <=? 9999)%N then pad10 4 y "" else "+" ++ pad10 6 y "" in
  year ++ "-" ++ pad10 2 m "" ++ "-" ++ pad10 2 d "" ++ "T"
    ++ pad10 2 (rest / 3600000)%N "" ++ ":"
    ++ pad10 2 (rest / 60000 mod 60)%N "" ++ ":"
    ++ pad10 2 (rest / 1000 mod 60)%N "" ++ "."
    ++ pad10 3 (rest mod 1000)%N "" ++ "Z".

(** ** The data directory *)

(** What reading and parsing a file gives: [readFileSync] throws on a
    missing file, [JSON.parse] throws on text that is not JSON. *)
Inductive content (A : Type) : Type :=
| Missing
| Unparseable
| Parsed (a : A).
Arguments Missing {A}.
Arguments Unparseable {A}.

(** The seven files.  A list-shaped file holds an array of objects and the
    counters an object of numbers: the startup code writes ['[]'] and
    ['{}'], and every write below keeps the shape.  [hydrophone.json]
    starts as ['[]'] and later holds the snapshot object.  The files hold
    what [JSON.stringify] wrote: a document read from a file is written
    back as it is. *)
Record Disk : Type := mkDisk {
  poisFile : content (list doc);
  routesFile : content (list doc);
  logsFile : content (list doc);
  statsFile : content (list (string * float));
  attractionsFile : content (list doc);
  hydrophoneFile : content json;
  hydroHistoryFile : content (list doc)
}.

(** The files as the startup loop leaves an empty data directory. *)
Definition fresh_disk : Disk :=
  mkDisk (Parsed []) (Parsed []) (Parsed []) (Parsed []) (Parsed [])
         (Parsed (JArr [])) (Parsed []).

(** The process and its surroundings: the files, the system clock as the
    sequence of its future readings (milliseconds since the epoch), and
    the strings [Math.random().toString(36)] will return. *)
Record World : Type := mkWorld {
  disk : Disk;
  clock : nat -> N;
  reads : nat;
  random : nat -> string;
  draws : nat
}.

Definition with_disk (d : Disk) (w : World) : World :=
  mkWorld d (clock w) (reads w) (random w) (draws w).

(** ** Handlers run in a state monad over the world *)

Definition M (A : Type) : Type := World -> A * World.

Definition ret (A : Type) (a : A) : M A := fun w => (a, w).

Definition bind (A B : Type) (m : M A) (k : A -> M B) : M B :=
  fun w => let (a, w') := m w in k a w'.

Notation "x <- m ;; k" := (bind m (fun x => k))
  (at level 61, m at next level, right associativity).
Notation "m ;;; k" := (bind m (fun _ => k))
  (at level 61, right associativity).

(** [Date.now()]: the next reading of the clock. *)
Definition Date_now : M N :=
  fun w => (clock w (reads w),
            mkWorld (disk w) (clock w) (S (reads w)) (random w) (draws w)).

(** [new Date().toISOString()] *)
Definition Date_iso : M string :=
  t <- Date_now ;; ret (toISOString t).

(** [Math.random().toString(36)] *)
Definition Math_random36 : M string :=
  fun w => (random w (draws w),
            mkWorld (disk w) (clock w) (reads w) (random w) (S (draws w))).

(** [readJson(file, fallback)] *)
Definition readJson (A : Type) (file : Disk -> content A) (fallback : A) : M A :=
  fun w => (match file (disk w) with
            | Parsed a => a
            | Missing | Unparseable => fallback
            end, w).

(** [writeJson(file, data)]: [put] names the file. *)
Definition writeJson (A : Type) (put : content A -> Disk -> Disk) (data : A)
  : M unit :=
  fun w => (tt, with_disk (put (Parsed data) (disk w)) w).

Definition put_pois (c : content (list doc)) (d : Disk) : Disk :=
  mkDisk c (routesFile d) (logsFile d) (statsFile d) (attractionsFile d)
         (hydrophoneFile d) (hydroHistoryFile d).
Definition put_routes (c : content (list doc)) (d : Disk) : Disk :=
  mkDisk (poisFile d) c (logsFile d) (statsFile d) (attractionsFile d)
         (hydrophoneFile d) (hydroHistoryFile d).
Definition put_logs (c : content (list doc)) (d : Disk) : Disk :=
  mkDisk (poisFile d) (routesFile d) c (statsFile d) (attractionsFile d)
         (hydrophoneFile d) (hydroHistoryFile d).
Definition put_stats (c : content (list (string * float))) (d : Disk) : Disk :=
  mkDisk (poisFile d) (routesFile d) (logsFile d) c (attractionsFile d)
         (hydrophoneFile d) (hydroHistoryFile d).
Definition put_attractions (c : content (list doc)) (d : Disk) : Disk :=
  mkDisk (poisFile d) (routesFile d) (logsFile d) (statsFile d) c
         (hydrophoneFile d) (hydroHistoryFile d).
Definition put_hydrophone (c : content json) (d : Disk) : Disk :=
  mkDisk (poisFile d) (routesFile d) (logsFile d) (statsFile d)
         (attractionsFile d) c (hydroHistoryFile d).
Definition put_hydroHistory (c : content (list doc)) (d : Disk) : Disk :=
  mkDisk (poisFile d) (routesFile d) (logsFile d) (statsFile d)
         (attractionsFile d) (hydrophoneFile d) c.

(** [n || 0] for a number [n] *)
Definition or_zero (n : float) : float :=
  if PrimFloat.eqb n 0 || PrimFloat.is_nan n then 0%float else n.

(** [stats[key] = (stats[key] || 0) + 1], in double arithmetic *)
Fixpoint bump (stats : list (string * float)) (key : string)
  : list (string * float) :=
  match stats with
  | [] => [(key, 1%float)]
  | (k, n) :: rest =>
      if String.eqb k key then (k, PrimFloat.add (or_zero n) 1) :: rest
      else (k, n) :: bump rest key
  end.

Definition incRequest (pathname method : string) : M unit :=
  stats <- readJson statsFile [] ;;
  let key := method ++ " " ++ pathname in
  writeJson put_stats (bump stats key).

(** The double nearest to an integer; exact up to 2^53, where every clock
    reading lies. *)
Definition float_of_Z (z : Z) : float :=
  SF2Prim (binary_normalize 53 1024 z 0 false).

Definition N2json (n : N) : json := JNum (float_of_Z (Z.of_N n)).

(** [logs.length = 500] when [logs.length > 500] *)
Definition cap500 (logs : list doc) : list doc :=
  if (500 <? List.length logs)%nat then firstn 500 logs else logs.

Definition logOp (type : string) (detail : doc) : M unit :=
  logs <- readJson logsFile [] ;;
  id <- Date_now ;;
  ts <- Date_iso ;;
  let entry := [("id", N2json id); ("type", JStr type);
                ("detail", JObj detail); ("ts", JStr ts)] in
  writeJson put_logs (cap500 (entry :: logs)).

Definition readPois : M (list doc) := readJson poisFile [].
Definition writePois (list : list doc) : M unit := writeJson put_pois list.
Definition readRoutes : M (list doc) := readJson routesFile [].
Definition writeRoutes (list : list doc) : M unit := writeJson put_routes list.
Definition readAttractions : M (list doc) := readJson attractionsFile [].
Definition writeAttractions (list : list doc) : M unit :=
  writeJson put_attractions list.

(** [v && typeof v === 'object' ? v : {}] *)
Definition readHydrophone : M json :=
  v <- readJson hydrophoneFile (JObj []) ;;
  ret (match v with
       | JObj _ | JArr _ => v
       | _ => JObj []
       end).

(** [writeJson(hydrophoneFile, obj || {})] for an object [obj] *)
Definition writeHydrophone (obj : doc) : M unit :=
  writeJson put_hydrophone (JObj obj).
Definition readHydroHistory : M (list doc) := readJson hydroHistoryFile [].
Definition writeHydroHistory (list : list doc) : M unit :=
  writeJson put_hydroHistory list.

(** ** Replies *)

(** What a route callback sends: [res.status(n).json(body)],
    [res.status(n).end()], or nothing because an exception left it. *)
Inductive Reply : Type :=
| Send (status : nat) (body : json)
| End (status : nat)
| Uncaught.

Definition invalid_payload : json := JObj [("message", JStr "Invalid payload")].
Definition invalid_position : json :=
  JObj [("message", JStr "Invalid payload: longitude/latitude must be numbers")].
Definition not_found : json := JObj [("message", JStr "Not found")].

(** [delete d[k]] *)
Fixpoint remove_key (d : doc) (k : string) : doc :=
  match d with
  | [] => []
  | (k', v) :: d' =>
      if String.eqb k' k then remove_key d' k else (k', v) :: remove_key d' k
  end.

(** [d[k] = v] for a [v] that may be [undefined], as serialised. *)
Definition assign (d : doc) (k : string) (v : value) : doc :=
  match v with
  | Some x => set d k x
  | None => remove_key d k
  end.

(** [if (req.body.k !== undefined) next.k = req.body.k]: [next] goes to
    the reply and to the file, which give the new value its stored form;
    the other fields come from the file. *)
Definition patch (body : json) (next : doc) (k : string) : doc :=
  match prop body k with
  | Some v => set next k (stored_form v)
  | None => next
  end.

(** [const list = ...; const item = list.find(p); item.k = v]: [item] is an
    element of [list], so the assignment shows in [list]. *)
Fixpoint assign_found (p : doc -> bool) (k : string) (v : value)
  (items : list doc) : list doc :=
  match items with
  | [] => []
  | x :: rest =>
      if p x then assign x k v :: rest else x :: assign_found p k v rest
  end.

(** [v || e] where evaluating [e] has an effect *)
Definition or_else_do (v : value) (e : M json) : M json :=
  match v with
  | Some x => if truthy v then ret x else e
  | None => e
  end.

Definition now_iso : M json := s <- Date_iso ;; ret (JStr s).

(** ** Routes *)

Definition post_routes (req_body : json) : M Reply :=
  let body := or_else (Some req_body) (JObj []) in
  let name := prop body "name" in
  let coords := prop body "coords" in
  if negb (truthy name) || negb (is_array coords)
     || match coords with Some (JArr []) => true | _ => false end
  then ret (Send 400 invalid_payload)
  else
    list <- readRoutes ;;
    t <- Date_now ;;
    createdAt <- Date_iso ;;
    let item := obj_lit [("id", Some (JStr (toString36 t))); ("name", name);
                         ("coords", coords);
                         ("createdAt", Some (JStr createdAt))] in
    writeRoutes (list ++ [as_stored item])%list ;;;
    logOp "route_create"
          (as_stored (obj_lit [("id", get item "id"); ("name", name)])) ;;;
    ret (Send 201 (JObj (as_stored item))).

Definition put_routes_id (id : string) (req_body : json) : M Reply :=
  list <- readRoutes ;;
  match findIndex (has_id id) list with
  | None => ret (Send 404 not_found)
  | Some idx =>
      let cur := nth idx list [] in
      let next := cur in
      let next := patch req_body next "name" in
      let next := patch req_body next "coords" in
      writeRoutes (set_at idx next list) ;;;
      logOp "route_update" [("id", JStr id)] ;;;
      ret (Send 200 (JObj next))
  end.

(** The four DELETE callbacks differ in the file and the log type only. *)
Definition delete_in (read : M (list doc)) (write : list doc -> M unit)
  (type : string) (id : string) : M Reply :=
  list <- read ;;
  let next := filter (fun x => negb (has_id id x)) list in
  if (List.length next =? List.length list)%nat
  then ret (Send 404 not_found)
  else
    write next ;;;
    logOp type [("id", JStr id)] ;;;
    ret (End 204).

Definition delete_routes_id : string -> M Reply :=
  delete_in readRoutes writeRoutes "route_delete".

(** ** POIs *)

Definition post_pois (req_body : json) : M Reply :=
  let body := or_else (Some req_body) (JObj []) in
  let name := prop body "name" in
  let lng := prop body "lng" in
  let lat := prop body "lat" in
  let address := default (prop body "address") (JStr "") in
  let tags := default (prop body "tags") (JArr []) in
  if negb (truthy name) || negb (is_number lng) || negb (is_number lat)
  then ret (Send 400 invalid_payload)
  else
    list <- readPois ;;
    t <- Date_now ;;
    let item := obj_lit [("id", Some (JStr (toString36 t))); ("name", name);
                         ("lng", lng); ("lat", lat);
                         ("address", Some address); ("tags", Some tags)] in
    writePois (list ++ [as_stored item])%list ;;;
    logOp "poi_create"
          (as_stored (obj_lit [("id", get item "id"); ("name", name)])) ;;;
    ret (Send 201 (JObj (as_stored item))).

Definition put_pois_id (id : string) (req_body : json) : M Reply :=
  list <- readPois ;;
  match findIndex (has_id id) list with
  | None => ret (Send 404 not_found)
  | Some idx =>
      let cur := nth idx list [] in
      let next := cur in
      let next := patch req_body next "name" in
      let next := patch req_body next "lng" in
      let next := patch req_body next "lat" in
      let next := patch req_body next "address" in
      let next := patch req_body next "tags" in
      writePois (set_at idx next list) ;;;
      logOp "poi_update" [("id", JStr id)] ;;;
      ret (Send 200 (JObj next))
  end.

Definition delete_pois_id : string -> M Reply :=
  delete_in readPois writePois "poi_delete".

(** ** Attractions *)

Definition post_attractions (req_body : json) : M Reply :=
  let body := or_else (Some req_body) (JObj []) in
  let name := prop body "name" in
  let lng := prop body "lng" in
  let lat := prop body "lat" in
  let address := default (prop body "address") (JStr "") in
  let tags := default (prop body "tags") (JArr []) in
  let desc := default (prop body "desc") (JStr "") in
  if negb (truthy name)
  then ret (Send 400 invalid_payload)
  else
    list <- readAttractions ;;
    t <- Date_now ;;
    let item := obj_lit [("id", Some (JStr (toString36 t))); ("name", name);
                         ("lng", lng); ("lat", lat);
                         ("address", Some address); ("tags", Some tags);
                         ("desc", Some desc)] in
    writeAttractions (list ++ [as_stored item])%list ;;;
    logOp "attraction_create"
          (as_stored (obj_lit [("id", get item "id"); ("name", name)])) ;;;
    ret (Send 201 (JObj (as_stored item))).

Definition attraction_keys : list string :=
  ["name"; "lng"; "lat"; "address"; "tags"; "desc"].

Definition put_attractions_id (id : string) (req_body : json) : M Reply :=
  list <- readAttractions ;;
  match findIndex (has_id id) list with
  | None => ret (Send 404 not_found)
  | Some idx =>
      let cur := nth idx list [] in
      let next := fold_left (patch req_body) attraction_keys cur in
      writeAttractions (set_at idx next list) ;;;
      logOp "attraction_update" [("id", JStr id)] ;;;
      ret (Send 200 (JObj next))
  end.

Definition delete_attractions_id : string -> M Reply :=
  delete_in readAttractions writeAttractions "attraction_delete".

(** ** Hydrophone snapshot *)

Definition get_hydrophone_latest : M Reply :=
  data <- readHydrophone ;;
  ret (Send 200 data).

(** [typeof v === 'number' ? v : null] *)
Definition number_or_null (v : value) : json :=
  match v with
  | Some (JNum x) => JNum x
  | _ => JNull
  end.

Definition post_hydrophone_update (req_body : json) : M Reply :=
  let body := or_else (Some req_body) (JObj []) in
  let longitude := prop body "longitude" in
  let latitude := prop body "latitude" in
  let heading := prop body "heading" in
  let temperature := prop body "temperature" in
  let humidity := prop body "humidity" in
  let pressure := prop body "pressure" in
  let salinity := prop body "salinity" in
  let shipDetected := prop body "shipDetected" in
  let shipType := prop body "shipType" in
  let timestamp := prop body "timestamp" in
  if negb (is_number longitude) || negb (is_number latitude)
  then ret (Send 400 invalid_position)
  else
    ts <- or_else_do timestamp now_iso ;;
    let payload :=
      obj_lit [("longitude", longitude);
               ("latitude", latitude);
               ("heading", Some (number_or_null heading));
               ("temperature", Some (number_or_null temperature));
               ("humidity", Some (number_or_null humidity));
               ("pressure", Some (number_or_null pressure));
               ("salinity", Some (number_or_null salinity));
               ("shipDetected",
                Some (match shipDetected with
                      | Some (JBool b) => JBool b
                      | _ => JBool (truthy shipDetected)
                      end));
               ("shipType", Some (or_else shipType (JStr "")));
               ("timestamp", Some ts)] in
    writeHydrophone (as_stored payload) ;;;
    logOp "hydrophone_update"
          (as_stored (obj_lit [("ts", get payload "timestamp")])) ;;;
    ret (Send 201 (JObj [("ok", JBool true)])).

(** ** Hydrophone history *)

(** [s.slice(2, 6)] *)
Definition slice_2_6 (s : string) : string := substring 2 4 s.

Definition post_hydro_history (req_body : json) : M Reply :=
  let body := or_else (Some req_body) (JObj []) in
  let longitude := prop body "longitude" in
  let latitude := prop body "latitude" in
  let heading := default (prop body "heading") JNull in
  let temperature := default (prop body "temperature") JNull in
  let humidity := default (prop body "humidity") JNull in
  let pressure := default (prop body "pressure") JNull in
  let salinity := default (prop body "salinity") JNull in
  let shipDetected := default (prop body "shipDetected") (JBool false) in
  let shipType := default (prop body "shipType") (JStr "") in
  let timestamp := default (prop body "timestamp") JNull in
  let name := default (prop body "name") (JStr "") in
  if negb (is_number longitude) || negb (is_number latitude)
  then ret (Send 400 invalid_position)
  else
    list <- readHydroHistory ;;
    t <- Date_now ;;
    r <- Math_random36 ;;
    ts <- or_else_do (Some timestamp) now_iso ;;
    createdAt <- Date_iso ;;
    let item :=
      obj_lit [("id", Some (JStr (toString36 t ++ slice_2_6 r)));
               ("name", Some (or_else (Some name) (JStr "未命名")));
               ("longitude", longitude);
               ("latitude", latitude);
               ("heading", Some heading);
               ("temperature", Some temperature);
               ("humidity", Some humidity);
               ("pressure", Some pressure);
               ("salinity", Some salinity);
               ("shipDetected", Some (JBool (truthy (Some shipDetected))));
               ("shipType", Some (or_else (Some shipType) (JStr "")));
               ("timestamp", Some ts);
               ("createdAt", Some (JStr createdAt));
               ("sentAt", Some JNull)] in
    writeHydroHistory (list ++ [as_stored item])%list ;;;
    logOp "hydro_history_create"
          (as_stored (obj_lit [("id", get item "id"); ("name", get item "name")])) ;;;
    ret (Send 201 (JObj (as_stored item))).

Definition delete_hydro_history_id : string -> M Reply :=
  delete_in readHydroHistory writeHydroHistory "hydro_history_delete".

(** The snapshot [send] builds from a history record. *)
Definition snapshot_of (item : doc) (ts : string) : doc :=
  obj_lit [("longitude", get item "longitude");
           ("latitude", get item "latitude");
           ("heading", get item "heading");
           ("temperature", get item "temperature");
           ("humidity", get item "humidity");
           ("pressure", get item "pressure");
           ("salinity", get item "salinity");
           ("shipDetected", Some (JBool (truthy (get item "shipDetected"))));
           ("shipType", Some (or_else (get item "shipType") (JStr "")));
           ("timestamp", Some (JStr ts))].

Definition post_hydro_history_id_send (id : string) : M Reply :=
  list <- readHydroHistory ;;
  match find (has_id id) list with
  | None => ret (Send 404 not_found)
  | Some item =>
      ts <- Date_iso ;;
      let payload := snapshot_of item ts in
      writeHydrophone payload ;;;
      let list := assign_found (has_id id) "sentAt" (get payload "timestamp") list in
      writeHydroHistory list ;;;
      logOp "hydro_history_send"
            (obj_lit [("id", Some (JStr id)); ("ts", get payload "timestamp")]) ;;;
      ret (Send 200 (JObj [("ok", JBool true); ("applied", JObj payload)]))
  end.

(** ** Stats and logs *)

Definition get_stats : M Reply :=
  stats <- readJson statsFile [] ;;
  ret (Send 200 (JObj (map (fun kn => (fst kn, JNum (snd kn))) stats))).

Definition get_logs : M Reply :=
  logs <- readJson logsFile [] ;;
  ret (Send 200 (JArr (map JObj logs))).

(** ** Listings *)

(** [Array.prototype.sort(comparefn)] belongs to the runtime.  It is taken
    as a stable insertion sort; a comparator that throws ([None]) ends the
    sort with its exception. *)
Section Sort.
Variable A : Type.
Variable comparefn : A -> A -> option Z.

Fixpoint insert (x : A) (sorted : list A) : option (list A) :=
  match sorted with
  | [] => Some [x]
  | y :: rest =>
      match comparefn x y with
      | None => None
      | Some c =>
          if (c <=? 0)%Z then Some (x :: sorted)
          else option_map (cons y) (insert x rest)
      end
  end.

Fixpoint sort (l : list A) : option (list A) :=
  match l with
  | [] => Some []
  | x :: rest =>
      match sort rest with
      | None => None
      | Some sorted => insert x sorted
      end
  end.
End Sort.

(** The runtime's string collation and the coercing case of [<] are
    parameters of the listings. *)
Section Listings.
(** [s.localeCompare(that)]: negative, zero or positive. *)
Variable localeCompare : string -> value -> Z.
(** [a < b] when the operands are defined and not both strings. *)
Variable lt_coerced : json -> json -> bool.

(** [a < b] *)
Definition js_lt (a b : value) : bool :=
  match a, b with
  | Some (JStr x), Some (JStr y) => String.ltb x y
  | None, _ | _, None => false
  | Some x, Some y => lt_coerced x y
  end.

(** [(a,b) => (a.createdAt < b.createdAt ? 1 : -1)] *)
Definition by_createdAt_desc (a b : doc) : option Z :=
  Some (if js_lt (get a "createdAt") (get b "createdAt") then 1%Z else (-1)%Z).

(** [(a,b) => a.name.localeCompare(b.name)]: a TypeError unless [a.name]
    is a string. *)
Definition by_name (a b : doc) : option Z :=
  match get a "name" with
  | Some (JStr s) => Some (localeCompare s (get b "name"))
  | _ => None
  end.

Definition list_with (read : M (list doc))
  (comparefn : doc -> doc -> option Z) : M Reply :=
  stored <- read ;;
  match sort comparefn stored with
  | Some list => ret (Send 200 (JArr (map JObj list)))
  | None => ret Uncaught
  end.

Definition get_routes : M Reply := list_with readRoutes by_createdAt_desc.
Definition get_pois : M Reply := list_with readPois by_name.
Definition get_attractions : M Reply := list_with readAttractions by_name.
Definition get_hydro_history : M Reply :=
  list_with readHydroHistory by_createdAt_desc.
End Listings.

(** The middleware in front of every callback. *)
Definition counted (method pathname : string) (callback : M Reply) : M Reply :=
  incRequest pathname method ;;; callback.

(** * Vocabulary of the properties *)

(** The documents a list-shaped file yields. *)
Definition docs_of (c : content (list doc)) : list doc :=
  match c with
  | Parsed l => l
  | Missing | Unparseable => []
  end.

Definition unreadable (A : Type) (c : content A) : Prop :=
  c = Missing \/ c = Unparseable.





(** A freshly started server whose clock advances one millisecond per
    reading, and one whose readings all fall in the same millisecond. *)
Definition ticking_world : World :=
  mkWorld fresh_disk (fun i => (1700000000000 + N.of_nat i)%N) 0
          (fun _ => "0.4fzyo82mvyr") 0.
Definition same_ms_world : World :=
  mkWorld fresh_disk (fun _ => 1700000000000%N) 0
          (fun _ => "0.4fzyo82mvyr") 0.

Definition pier : json :=
  JObj [("name", JStr "Pier"); ("lng", JNum 120.1%float); ("lat", JNum 30.2%float)].

Definition numeric_keys : list string :=
  ["heading"; "temperature"; "humidity"; "pressure"; "salinity"].

(** The snapshot [POST /api/hydrophone/update] stores. *)
Definition snapshot_payload (body : json) (now : string) : doc :=
  as_stored
    (obj_lit [("longitude", prop body "longitude");
              ("latitude", prop body "latitude");
              ("heading", Some (number_or_null (prop body "heading")));
              ("temperature", Some (number_or_null (prop body "temperature")));
              ("humidity", Some (number_or_null (prop body "humidity")));
              ("pressure", Some (number_or_null (prop body "pressure")));
              ("salinity", Some (number_or_null (prop body "salinity")));
              ("shipDetected",
               Some (match prop body "shipDetected" with
                     | Some (JBool b) => JBool b
                     | _ => JBool (truthy (prop body "shipDetected"))
                     end));
              ("shipType", Some (or_else (prop body "shipType") (JStr "")));
              ("timestamp", Some (or_else (prop body "timestamp") (JStr now)))]).


(** The three entities with create, update and delete; the hydrophone
    history has create, delete and send. *)
Inductive entity : Type := Poi | Route | Attraction.
Inductive collection : Type := Crud (e : entity) | HydroHistory.

Definition file_of (c : collection) : Disk -> content (list doc) :=
  match c with
  | Crud Poi => poisFile
  | Crud Route => routesFile
  | Crud Attraction => attractionsFile
  | HydroHistory => hydroHistoryFile
  end.

(** The documents of a collection as a request finds them. *)
Definition stored (c : collection) (w : World) : list doc :=
  docs_of (file_of c (disk w)).

Definition post_to (e : entity) : json -> M Reply :=
  match e with
  | Poi => post_pois
  | Route => post_routes
  | Attraction => post_attractions
  end.

Definition put_to (e : entity) : string -> json -> M Reply :=
  match e with
  | Poi => put_pois_id
  | Route => put_routes_id
  | Attraction => put_attractions_id
  end.

Definition delete_from (c : collection) : string -> M Reply :=
  match c with
  | Crud Poi => delete_pois_id
  | Crud Route => delete_routes_id
  | Crud Attraction => delete_attractions_id
  | HydroHistory => delete_hydro_history_id
  end.

(** The keys a PUT callback copies from the body. *)
Definition updatable_keys (e : entity) : list string :=
  match e with
  | Poi => ["name"; "lng"; "lat"; "address"; "tags"]
  | Route => ["name"; "coords"]
  | Attraction => attraction_keys
  end.

(** The listing of a collection, by name. *)
Section Dispatch.
Variable localeCompare : string -> value -> Z.
Variable lt_coerced : json -> json -> bool.

Definition list_from (c : collection) : M Reply :=
  match c with
  | Crud Poi => get_pois localeCompare
  | Crud Route => get_routes lt_coerced
  | Crud Attraction => get_attractions localeCompare
  | HydroHistory => get_hydro_history lt_coerced
  end.

Definition comparefn_of (c : collection) : doc -> doc -> option Z :=
  match c with
  | Crud Poi | Crud Attraction => by_name localeCompare
  | Crud Route | HydroHistory => by_createdAt_desc lt_coerced
  end.

End Dispatch.

(** The server after [POST /api/pois] of the pier. *)
Definition pier_world : World := snd (post_pois pier ticking_world).

Definition harbour : json :=
  JObj [("name", JStr "Harbour"); ("lng", JNum 120.2%float); ("lat", JNum 30.3%float)].

(** Two POIs posted within the same millisecond. *)
Definition twin_world : World :=
  snd (post_pois harbour (snd (post_pois pier same_ms_world))).

(** The value an object literal gives a key. *)
Fixpoint field (l : list (string * value)) (k : string) : value :=
  match l with
  | [] => None
  | (k', v) :: l' => if String.eqb k' k then v else field l' k
  end.

Definition copied_keys : list string :=
  ["longitude"; "latitude"; "heading"; "temperature"; "humidity"; "pressure";
   "salinity"].

Definition sounding : json :=
  JObj [("name", JStr "Buoy 7"); ("longitude", JNum 120.1%float);
        ("latitude", JNum 30.2%float); ("heading", JNum 90%float);
        ("shipDetected", JBool true); ("shipType", JStr "cargo")].
Definition later_sounding : json :=
  JObj [("name", JStr "Buoy 8"); ("longitude", JNum 121.5%float);
        ("latitude", JNum 31.1%float)].

Definition sounding_world : World := snd (post_hydro_history sounding ticking_world).

(** Two history records posted within the same millisecond with the same
    random suffix. *)
Definition twin_soundings : World :=
  snd (post_hydro_history later_sounding
         (snd (post_hydro_history sounding same_ms_world))).



Inductive request : Type :=
| Create (body : json)
| Update (id : string) (body : json)
| Delete (id : string).

Definition serve (e : entity) (r : request) : M Reply :=
  match r with
  | Create body => post_to e body
  | Update id body => put_to e id body
  | Delete id => delete_from (Crud e) id
  end.

Fixpoint serve_all (e : entity) (rs : list request) (w : World) : World :=
  match rs with
  | [] => w
  | r :: rs' => serve_all e rs' (snd (serve e r w))
  end.




(** [Array.isArray(d.coords) && d.coords.length > 0] *)
Definition has_coords (d : doc) : bool :=
  match get d "coords" with
  | Some (JArr (_ :: _)) => true
  | _ => false
  end.

Definition loop : json :=
  JObj [("name", JStr "Loop");
        ("coords", JArr [JArr [JNum 120.1%float; JNum 30.2%float];
                         JArr [JNum 120.2%float; JNum 30.3%float]])].

(** An update that carries no [coords], a create and a delete keep every
    stored route with a non-empty coords array. *)
Definition leaves_coords (r : request) : Prop :=
  match r with
  | Update _ body => prop body "coords" = None
  | Create _ | Delete _ => True
  end.

(** [a] is listed before [b] rightly: both have a string [createdAt] and
    that of [a] is not smaller. *)
Definition not_older (a b : doc) : Prop :=
  exists x y, get a "createdAt" = Some (JStr x) /\
              get b "createdAt" = Some (JStr y) /\ String.ltb x y = false.

Definition numbered (n : Z) : json :=
  JObj [("name", JNum (float_of_Z n)); ("lng", JNum 120.1%float);
        ("lat", JNum 30.2%float)].

(** * The rest of the server *)

(** ** Startup *)

(** [if (!fs.existsSync(f)) fs.writeFileSync(f, ...)]: only a file that
    does not exist is written. *)
Definition ensure (A : Type) (initial : A) (c : content A) : content A :=
  match c with
  | Missing => Parsed initial
  | Unparseable | Parsed _ => c
  end.

(** The loop over the seven files: ['{}'] for the counters, ['[]'] for
    every other file, the snapshot included. *)
Definition startup (d : Disk) : Disk :=
  mkDisk (ensure [] (poisFile d)) (ensure [] (routesFile d))
         (ensure [] (logsFile d)) (ensure [] (statsFile d))
         (ensure [] (attractionsFile d)) (ensure (JArr []) (hydrophoneFile d))
         (ensure [] (hydroHistoryFile d)).

(** ** The routes of the API *)

(** A request that one of the API routes matches, with its decoded route
    parameter and parsed body. *)
Inductive endpoint : Type :=
| GetList (c : collection)
| PostEntity (e : entity) (body : json)
| PutEntity (e : entity) (id : string) (body : json)
| DeleteDoc (c : collection) (id : string)
| GetLatest
| PostSnapshot (body : json)
| PostHistory (body : json)
| PostSend (id : string)
| GetStats
| GetLogs.

(** A request as it arrives: [req.method] and [req.path] as the request
    line has them, which is all the counting middleware looks at, and the
    route that matches.  The path is not a function of the route: it is
    matched without regard to case or a trailing slash and holds the id
    percent-encoded. *)
Record Request : Type := mkRequest {
  req_method : string;
  req_path : string;
  route : endpoint
}.

Section Routing.
Variable localeCompare : string -> value -> Z.
Variable lt_coerced : json -> json -> bool.

(** The callback registered for the route. *)
Definition callback (ep : endpoint) : M Reply :=
  match ep with
  | GetList c => list_from localeCompare lt_coerced c
  | PostEntity e body => post_to e body
  | PutEntity e id body => put_to e id body
  | DeleteDoc c id => delete_from c id
  | GetLatest => get_hydrophone_latest
  | PostSnapshot body => post_hydrophone_update body
  | PostHistory body => post_hydro_history body
  | PostSend id => post_hydro_history_id_send id
  | GetStats => get_stats
  | GetLogs => get_logs
  end.

(** The request as the server handles it: the counting middleware, then
    the callback. *)
Definition handle (r : Request) : M Reply :=
  counted (req_method r) (req_path r) (callback (route r)).

Fixpoint handle_all (rs : list Request) (w : World) : World :=
  match rs with
  | [] => w
  | r :: rs' => handle_all rs' (snd (handle r w))
  end.
End Routing.

(** ** Vocabulary of the further properties *)

(** The counters a request finds. *)
Definition stats_of (w : World) : list (string * float) :=
  match statsFile (disk w) with
  | Parsed s => s
  | Missing | Unparseable => []
  end.

(** [stats[key]] *)
Fixpoint counter (stats : list (string * float)) (key : string)
  : option float :=
  match stats with
  | [] => None
  | (k, n) :: rest => if String.eqb k key then Some n else counter rest key
  end.

(** [stats[key]], 0 when there is none. *)
Definition count_of (stats : list (string * float)) (key : string) : float :=
  match counter stats key with
  | Some n => n
  | None => 0%float
  end.

(** [(n || 0) + 1], in double arithmetic. *)
Definition add_one (n : float) : float := PrimFloat.add (or_zero n) 1.

(** 2^53, the first double whose successor is not a double. *)
Definition two_53 : float := 9007199254740992%float.

(** The log a request finds. *)
Definition logs_of (w : World) : list doc := docs_of (logsFile (disk w)).

(** [m] run [n] times in a row. *)
Fixpoint times (n : nat) (m : M unit) : M unit :=
  match n with
  | O => ret tt
  | S n' => m ;;; times n' m
  end.

(** A reply with status 400 or 404. *)
Definition rejected (r : Reply) : bool :=
  match r with
  | Send status _ => (status =? 400)%nat || (status =? 404)%nat
  | End _ | Uncaught => false
  end.

(** A reply with status 200, 201 or 204. *)
Definition succeeded (r : Reply) : bool :=
  match r with
  | Send status _ => (status =? 200)%nat || (status =? 201)%nat
  | End status => (status =? 204)%nat
  | Uncaught => false
  end.

(** The type of the log entry a route writes, if it writes one. *)
Definition log_type (ep : endpoint) : option string :=
  match ep with
  | PostEntity Poi _ => Some "poi_create"
  | PostEntity Route _ => Some "route_create"
  | PostEntity Attraction _ => Some "attraction_create"
  | PutEntity Poi _ _ => Some "poi_update"
  | PutEntity Route _ _ => Some "route_update"
  | PutEntity Attraction _ _ => Some "attraction_update"
  | DeleteDoc (Crud Poi) _ => Some "poi_delete"
  | DeleteDoc (Crud Route) _ => Some "route_delete"
  | DeleteDoc (Crud Attraction) _ => Some "attraction_delete"
  | DeleteDoc HydroHistory _ => Some "hydro_history_delete"
  | PostSnapshot _ => Some "hydrophone_update"
  | PostHistory _ => Some "hydro_history_create"
  | PostSend _ => Some "hydro_history_send"
  | GetList _ | GetLatest | GetStats | GetLogs => None
  end.

(** The collection file a route may write. *)
Definition target (ep : endpoint) : option collection :=
  match ep with
  | PostEntity e _ | PutEntity e _ _ => Some (Crud e)
  | DeleteDoc c _ => Some c
  | PostHistory _ | PostSend _ => Some HydroHistory
  | GetList _ | GetLatest | PostSnapshot _ | GetStats | GetLogs => None
  end.

(** The document [POST /api/attractions] builds. *)
Definition attraction_item (id : string) (body : json) : doc :=
  as_stored
    (obj_lit [("id", Some (JStr id)); ("name", prop body "name");
              ("lng", prop body "lng"); ("lat", prop body "lat");
              ("address", Some (default (prop body "address") (JStr "")));
              ("tags", Some (default (prop body "tags") (JArr [])));
              ("desc", Some (default (prop body "desc") (JStr "")))]).

(** The collection and id a route addresses through its [:id] parameter. *)
Definition addressed (ep : endpoint) : option (collection * string) :=
  match ep with
  | PutEntity e id _ => Some (Crud e, id)
  | DeleteDoc c id => Some (c, id)
  | PostSend id => Some (HydroHistory, id)
  | _ => None
  end.

(** [Array.isArray(v) && v.length > 0] *)
Definition nonempty_array (v : value) : bool :=
  match v with
  | Some (JArr (_ :: _)) => true
  | _ => false
  end.

(** Whether a route may write the snapshot. *)
Definition writes_snapshot (ep : endpoint) : bool :=
  match ep with
  | PostSnapshot _ | PostSend _ => true
  | _ => false
  end.

(** * Properties *)

Lemma readJson_unreadable (A : Type) (file : Disk -> content A) (fallback : A)
  (w : World) :
  unreadable (file (disk w)) -> readJson file fallback w = (fallback, w).
Proof.
  unfold readJson. intros [H | H]; rewrite H; reflexivity.
Qed.

(** ** The audit log *)

Lemma cap500_firstn (logs : list doc) : cap500 logs = firstn 500 logs.
Proof.
  unfold cap500. destruct (Nat.ltb_spec 500 (List.length logs)) as [H | H].
  - reflexivity.
  - symmetry. apply firstn_all2. exact H.
Qed.

Lemma logOp_disk (type : string) (detail : doc) (w : World) :
  disk (snd (logOp type detail w)) =
  put_logs
    (Parsed (cap500
       ([("id", N2json (clock w (reads w))); ("type", JStr type);
         ("detail", JObj detail);
         ("ts", JStr (toISOString (clock w (S (reads w)))))]
        :: docs_of (logsFile (disk w)))))
    (disk w).
Proof.
  unfold logOp, bind, readJson, Date_iso, Date_now, bind, ret, writeJson, with_disk.
  simpl. destruct (logsFile (disk w)); reflexivity.
Qed.

(** C3. Appending to the audit log puts the new entry at position 0 and
    leaves at most 500 entries; on a log of exactly 500 entries the result
    is the new entry followed by all former entries but the last (the
    oldest), and below 500 nothing is evicted. *)
Theorem logOp_prepends_and_caps (type : string) (detail : doc) (w : World) :
  let before := docs_of (logsFile (disk w)) in
  let after := docs_of (logsFile (disk (snd (logOp type detail w)))) in
  exists entry : doc,
    get entry "type" = Some (JStr type) /\
    get entry "detail" = Some (JObj detail) /\
    nth_error after 0 = Some entry /\
    after = firstn 500 (entry :: before) /\
    (List.length after <= 500)%nat /\
    ((List.length before = 500)%nat -> after = entry :: removelast before) /\
    ((List.length before < 500)%nat -> after = entry :: before).
Proof.
  cbv zeta. rewrite logOp_disk. cbn [put_logs logsFile docs_of].
  rewrite cap500_firstn.
  change (firstn 500) with (firstn (A:=doc) (S 499)).
  rewrite firstn_cons.
  exists [("id", N2json (clock w (reads w))); ("type", JStr type);
          ("detail", JObj detail);
          ("ts", JStr (toISOString (clock w (S (reads w)))))].
  split; [reflexivity |].
  split; [reflexivity |].
  split; [reflexivity |].
  split; [reflexivity |].
  split; [| split].
  - cbn [Datatypes.length]. apply le_n_S. apply firstn_le_length.
  - intros H. f_equal. rewrite removelast_firstn_len, H. reflexivity.
  - intros H. f_equal. apply firstn_all2. apply Nat.lt_succ_r. exact H.
Qed.

(** ** Loading *)

(** C7. When a file is missing or does not parse, loading it returns the
    empty default and nothing else happens: the empty sequence for POIs,
    routes, attractions, hydrophone history and the log, the empty mapping
    for the hydrophone snapshot and the usage counters. *)
Theorem load_falls_back_to_empty (w : World) :
  (unreadable (poisFile (disk w)) -> readPois w = ([], w)) /\
  (unreadable (routesFile (disk w)) -> readRoutes w = ([], w)) /\
  (unreadable (attractionsFile (disk w)) -> readAttractions w = ([], w)) /\
  (unreadable (hydroHistoryFile (disk w)) -> readHydroHistory w = ([], w)) /\
  (unreadable (logsFile (disk w)) ->
   readJson logsFile [] w = ([], w) /\ get_logs w = (Send 200 (JArr []), w)) /\
  (unreadable (hydrophoneFile (disk w)) ->
   readHydrophone w = (JObj [], w) /\
   get_hydrophone_latest w = (Send 200 (JObj []), w)) /\
  (unreadable (statsFile (disk w)) ->
   readJson statsFile [] w = ([], w) /\ get_stats w = (Send 200 (JObj []), w)).
Proof.
  repeat split; intros;
    unfold readPois, readRoutes, readAttractions, readHydroHistory,
      get_logs, get_hydrophone_latest, readHydrophone, get_stats, bind;
    rewrite readJson_unreadable by assumption; reflexivity.
Qed.

(** ** Running a handler *)

Arguments cap500 : simpl never.
Arguments toISOString : simpl never.
Arguments toString36 : simpl never.

Lemma bind_run (A B : Type) (m : M A) (k : A -> M B) (w : World) :
  bind m k w = k (fst (m w)) (snd (m w)).
Proof.
  unfold bind. destruct (m w). reflexivity.
Qed.

Lemma readJson_run (A : Type) (file : Disk -> content A) (fallback : A)
  (w : World) :
  snd (readJson file fallback w) = w.
Proof. reflexivity. Qed.

Lemma readJson_docs (file : Disk -> content (list doc)) (w : World) :
  fst (readJson file [] w) = docs_of (file (disk w)).
Proof.
  unfold readJson, docs_of. simpl. destruct (file (disk w)); reflexivity.
Qed.

(** [logOp] touches the log file and the clock only. *)
Lemma logOp_frame (type : string) (detail : doc) (w : World) :
  let w' := snd (logOp type detail w) in
  poisFile (disk w') = poisFile (disk w) /\
  routesFile (disk w') = routesFile (disk w) /\
  attractionsFile (disk w') = attractionsFile (disk w) /\
  hydrophoneFile (disk w') = hydrophoneFile (disk w) /\
  hydroHistoryFile (disk w') = hydroHistoryFile (disk w) /\
  statsFile (disk w') = statsFile (disk w).
Proof.
  cbv zeta. rewrite logOp_disk. repeat split.
Qed.

(** [req.body || {}]: a falsy body has no properties either. *)
Lemma prop_body_or_empty (body : json) (k : string) :
  prop (or_else (Some body) (JObj [])) k = prop body k.
Proof.
  unfold or_else. destruct (truthy (Some body)) eqn:E; [reflexivity |].
  destruct body; simpl in *; try reflexivity; discriminate.
Qed.

(** The run of a handler that reads a collection, appends or replaces, and
    logs: the final world is that of [logOp]. *)
Ltac run :=
  rewrite ?bind_run; unfold ret;
  cbn [fst snd]; rewrite ?readJson_run, ?readJson_docs.

(** ** Stored forms *)



Lemma get_as_stored (d : doc) (k : string) :
  get (as_stored d) k = option_map stored_form (get d k).
Proof.
  induction d as [| [k' v] d IH]; [reflexivity |].
  cbn [as_stored map get]. destruct (String.eqb k' k); [reflexivity | exact IH].
Qed.

Lemma as_stored_keys (d : doc) : map fst (as_stored d) = map fst d.
Proof.
  induction d as [| [k v] d IH]; [reflexivity |].
  cbn [as_stored map fst]. f_equal. exact IH.
Qed.

(** ** Creating a POI *)



(** The scenario of the spec: [POST /api/pois {name:"Pier", lng:120.1, lat:30.2}]. *)
Example post_pois_pier :
  fst (post_pois pier ticking_world)
  = Send 201 (JObj [("id", JStr "loyw3v28"); ("name", JStr "Pier");
                    ("lng", JNum 120.1%float); ("lat", JNum 30.2%float);
                    ("address", JStr ""); ("tags", JArr [])]).
Proof. vm_compute. reflexivity. Qed.



(** A longitude beyond the doubles is a number to the check and null in
    the reply and the file; a name that underflows to zero is refused. *)
Example post_pois_overflow_and_underflow :
  fst (post_pois (JObj [("name", JStr "Pier"); ("lng", JNum 1e400%float);
                        ("lat", JNum 30.2%float)]) ticking_world)
  = Send 201 (JObj [("id", JStr "loyw3v28"); ("name", JStr "Pier");
                    ("lng", JNull); ("lat", JNum 30.2%float);
                    ("address", JStr ""); ("tags", JArr [])]) /\
  fst (post_pois (JObj [("name", JNum 1e-400%float); ("lng", JNum 120.1%float);
                        ("lat", JNum 30.2%float)]) ticking_world)
  = Send 400 invalid_payload.
Proof. split; vm_compute; reflexivity. Qed.


(** ** Updating the hydrophone snapshot *)

Lemma or_else_do_value (v : value) (w : World) :
  fst (or_else_do v now_iso w)
  = or_else v (JStr (toISOString (clock w (reads w)))).
Proof.
  unfold or_else_do, or_else. destruct v as [x |]; [| reflexivity].
  destruct (truthy (Some x)); reflexivity.
Qed.

Lemma or_else_do_disk (v : value) (w : World) :
  disk (snd (or_else_do v now_iso w)) = disk w.
Proof.
  unfold or_else_do. destruct v as [x |]; [| reflexivity].
  destruct (truthy (Some x)); reflexivity.
Qed.

Lemma post_hydrophone_update_accepts (body : json) (w : World) :
  is_number (prop body "longitude") = true ->
  is_number (prop body "latitude") = true ->
  fst (post_hydrophone_update body w) = Send 201 (JObj [("ok", JBool true)]) /\
  hydrophoneFile (disk (snd (post_hydrophone_update body w)))
  = Parsed (JObj (snapshot_payload body (toISOString (clock w (reads w))))).
Proof.
  intros Hg Ht. unfold post_hydrophone_update. rewrite !prop_body_or_empty.
  rewrite Hg, Ht. cbn [negb orb]. unfold writeHydrophone.
  run. split; [reflexivity |].
  match goal with
  | |- context [logOp ?t ?d ?w1] =>
      destruct (logOp_frame t d w1) as (_ & _ & _ & E & _); cbv zeta in E;
      rewrite E
  end.
  unfold writeJson. cbn [snd disk with_disk put_hydrophone hydrophoneFile].
  rewrite or_else_do_value. reflexivity.
Qed.



(** A heading beyond the doubles is a number to the check and is stored
    as null; values that underflow to zero are falsy. *)
Example post_hydrophone_update_overflow_and_underflow :
  hydrophoneFile
    (disk (snd (post_hydrophone_update
                  (JObj [("longitude", JNum 120.1%float);
                         ("latitude", JNum 30.2%float);
                         ("heading", JNum 1e400%float);
                         ("shipDetected", JNum 1e-400%float);
                         ("shipType", JNum 1e-400%float);
                         ("timestamp", JNum 1e-400%float)])
                  ticking_world)))
  = Parsed (JObj [("longitude", JNum 120.1%float); ("latitude", JNum 30.2%float);
                  ("heading", JNull); ("temperature", JNull);
                  ("humidity", JNull); ("pressure", JNull); ("salinity", JNull);
                  ("shipDetected", JBool false); ("shipType", JStr "");
                  ("timestamp", JStr "2023-11-14T22:13:20.000Z")]).
Proof. vm_compute. reflexivity. Qed.


(** ** Documents and arrays *)

Lemma get_set_same (d : doc) (k : string) (v : json) :
  get (set d k v) k = Some v.
Proof.
  induction d as [| [k' v'] d IH]; simpl.
  - rewrite String.eqb_refl. reflexivity.
  - destruct (String.eqb k' k) eqn:E; simpl; rewrite E; [reflexivity | exact IH].
Qed.

Lemma get_set_other (d : doc) (k k' : string) (v : json) :
  k' <> k -> get (set d k' v) k = get d k.
Proof.
  intros Hne. induction d as [| [k0 v0] d IH]; simpl.
  - destruct (String.eqb_spec k' k); [contradiction | reflexivity].
  - destruct (String.eqb_spec k0 k') as [-> | Hk0]; simpl.
    + destruct (String.eqb_spec k' k); [contradiction | reflexivity].
    + destruct (String.eqb k0 k); [reflexivity | exact IH].
Qed.

Lemma get_patch_same (body : json) (d : doc) (k : string) :
  get (patch body d k) k
  = match prop body k with Some v => Some (stored_form v) | None => get d k end.
Proof.
  unfold patch. destruct (prop body k); [apply get_set_same | reflexivity].
Qed.

Lemma get_patch_other (body : json) (d : doc) (k k' : string) :
  k' <> k -> get (patch body d k') k = get d k.
Proof.
  intros Hne. unfold patch.
  destruct (prop body k'); [apply get_set_other; exact Hne | reflexivity].
Qed.



Lemma findIndex_Some (A : Type) (p : A -> bool) (l : list A) (i : nat) :
  findIndex p l = Some i ->
  exists x, nth_error l i = Some x /\ p x = true /\
            forall j y, j < i -> nth_error l j = Some y -> p y = false.
Proof.
  revert i. induction l as [| a l IH]; intros i H; [discriminate |].
  simpl in H. destruct (p a) eqn:E.
  - injection H as <-. exists a. repeat split; [exact E |].
    intros j y Hj. inversion Hj.
  - destruct (findIndex p l) as [i' |]; [| discriminate].
    injection H as <-. destruct (IH i' eq_refl) as (x & Hx & Hp & Hfirst).
    exists x. repeat split; [exact Hx | exact Hp |].
    intros [| j] y Hj Hy; simpl in Hy.
    + injection Hy as <-. exact E.
    + apply (Hfirst j); [lia | exact Hy].
Qed.



Lemma set_at_length (A : Type) (i : nat) (x : A) (l : list A) :
  List.length (set_at i x l) = List.length l.
Proof.
  revert i. induction l as [| a l IH]; intros [| i]; simpl; try reflexivity.
  rewrite IH. reflexivity.
Qed.

Lemma nth_error_set_at_same (A : Type) (i : nat) (x : A) (l : list A) :
  i < List.length l -> nth_error (set_at i x l) i = Some x.
Proof.
  revert i. induction l as [| a l IH]; intros [| i] H; simpl in *;
    try lia; [reflexivity |].
  apply IH. lia.
Qed.

Lemma nth_error_set_at_other (A : Type) (i j : nat) (x : A) (l : list A) :
  j <> i -> nth_error (set_at i x l) j = nth_error l j.
Proof.
  revert i j. induction l as [| a l IH]; intros [| i] [| j] H; simpl;
    try reflexivity; try congruence.
  apply IH. congruence.
Qed.

(** ** Updating a document *)

Lemma put_to_missing (e : entity) (id : string) (body : json) (w : World) :
  findIndex (has_id id) (stored (Crud e) w) = None ->
  put_to e id body w = (Send 404 not_found, w).
Proof.
  intros H. unfold stored in H.
  destruct e; cbn [put_to file_of] in *;
    unfold put_pois_id, put_routes_id, put_attractions_id,
      readPois, readRoutes, readAttractions;
    rewrite bind_run, readJson_docs, readJson_run, H; reflexivity.
Qed.

Lemma put_to_found (e : entity) (id : string) (body : json) (w : World)
  (idx : nat) :
  findIndex (has_id id) (stored (Crud e) w) = Some idx ->
  let next :=
    fold_left (patch body) (updatable_keys e) (nth idx (stored (Crud e) w) []) in
  fst (put_to e id body w) = Send 200 (JObj next) /\
  file_of (Crud e) (disk (snd (put_to e id body w)))
  = Parsed (set_at idx next (stored (Crud e) w)).
Proof.
  intros H next. subst next. unfold stored in *.
  destruct e; cbn [put_to file_of updatable_keys] in *;
    unfold put_pois_id, put_routes_id, put_attractions_id,
      readPois, readRoutes, readAttractions,
      writePois, writeRoutes, writeAttractions;
    rewrite bind_run, readJson_docs, readJson_run, H; run;
    (split; [reflexivity |]);
    match goal with
    | |- context [logOp ?t ?d ?w1] =>
        destruct (logOp_frame t d w1) as (E1 & E2 & E3 & _); cbv zeta in E1, E2, E3;
        rewrite ?E1, ?E2, ?E3
    end; reflexivity.
Qed.


(** The scenario of the spec: [PUT /api/pois/{id} {tags:["park"]}]. *)
Example put_pois_tags :
  fst (put_pois_id "loyw3v28" (JObj [("tags", JArr [JStr "park"])]) pier_world)
  = Send 200 (JObj [("id", JStr "loyw3v28"); ("name", JStr "Pier");
                    ("lng", JNum 120.1%float); ("lat", JNum 30.2%float);
                    ("address", JStr ""); ("tags", JArr [JStr "park"])]).
Proof. vm_compute. reflexivity. Qed.



(** ** Listing *)

Lemma insert_perm (A : Type) (cmp : A -> A -> option Z) (x : A)
  (l s : list A) :
  insert cmp x l = Some s -> Permutation (x :: l) s.
Proof.
  revert s. induction l as [| y l IH]; intros s H; simpl in H.
  - injection H as <-. apply Permutation_refl.
  - destruct (cmp x y) as [c |]; [| discriminate].
    destruct (c <=? 0)%Z.
    + injection H as <-. apply Permutation_refl.
    + destruct (insert cmp x l) as [s' |]; [| discriminate].
      injection H as <-. eapply perm_trans; [apply perm_swap |].
      apply perm_skip. apply IH. reflexivity.
Qed.

Lemma sort_perm (A : Type) (cmp : A -> A -> option Z) (l s : list A) :
  sort cmp l = Some s -> Permutation l s.
Proof.
  revert s. induction l as [| x l IH]; intros s H; simpl in H.
  - injection H as <-. apply perm_nil.
  - destruct (sort cmp l) as [s' |]; [| discriminate].
    eapply perm_trans; [apply perm_skip; apply IH; reflexivity |].
    apply insert_perm with (cmp := cmp). exact H.
Qed.

Section ListingFacts.
Variable localeCompare : string -> value -> Z.
Variable lt_coerced : json -> json -> bool.

Lemma list_from_run (c : collection) (w : World) :
  list_from localeCompare lt_coerced c w
  = (match sort (comparefn_of localeCompare lt_coerced c) (stored c w) with
     | Some l => Send 200 (JArr (map JObj l))
     | None => Uncaught
     end, w).
Proof.
  unfold stored.
  destruct c as [[] |]; cbn [list_from comparefn_of file_of];
    unfold get_pois, get_routes, get_attractions, get_hydro_history, list_with,
      readPois, readRoutes, readAttractions, readHydroHistory;
    rewrite bind_run, readJson_docs, readJson_run;
    match goal with |- context [sort ?f ?l] => destruct (sort f l) end;
    reflexivity.
Qed.

(** A listing changes nothing, and what it sends is a rearrangement of
    the stored documents. *)
Lemma list_from_permutation (c : collection) (w : World) (items : list json) :
  fst (list_from localeCompare lt_coerced c w) = Send 200 (JArr items) ->
  snd (list_from localeCompare lt_coerced c w) = w /\
  exists l, items = map JObj l /\ Permutation (stored c w) l.
Proof.
  rewrite list_from_run. cbn [fst snd]. intros H. split; [reflexivity |].
  destruct (sort (comparefn_of localeCompare lt_coerced c) (stored c w))
    as [l |] eqn:E; [| discriminate].
  injection H as <-. exists l. split; [reflexivity |].
  apply sort_perm with (cmp := comparefn_of localeCompare lt_coerced c). exact E.
Qed.
End ListingFacts.

(** ** Deleting *)

Lemma filter_length_same (A : Type) (p : A -> bool) (l : list A) :
  List.length (filter p l) = List.length l <-> forall x, In x l -> p x = true.
Proof.
  induction l as [| a l IH]; simpl.
  - split; [intros _ x [] | reflexivity].
  - pose proof (filter_length_le p l) as Hle.
    destruct (p a) eqn:E; simpl.
    + split.
      * intros H x [<- | Hx]; [exact E |]. apply IH; [lia | exact Hx].
      * intros H. f_equal. apply IH. intros x Hx. apply H. right. exact Hx.
    + split; [lia |]. intros H. rewrite (H a) in E; [discriminate |].
      left. reflexivity.
Qed.

Lemma filter_length_split (A : Type) (p : A -> bool) (l : list A) :
  List.length (filter (fun x => negb (p x)) l) + List.length (filter p l)
  = List.length l.
Proof.
  induction l as [| a l IH]; simpl; [reflexivity |].
  destruct (p a); simpl; lia.
Qed.

Lemma delete_from_run (c : collection) (id : string) (w : World) :
  let next := filter (fun x => negb (has_id id x)) (stored c w) in
  if (List.length next =? List.length (stored c w))%nat
  then delete_from c id w = (Send 404 not_found, w)
  else fst (delete_from c id w) = End 204 /\
       file_of c (disk (snd (delete_from c id w))) = Parsed next.
Proof.
  cbv zeta. unfold stored.
  destruct c as [[] |]; cbn [delete_from file_of];
    unfold delete_pois_id, delete_routes_id, delete_attractions_id,
      delete_hydro_history_id, delete_in,
      readPois, readRoutes, readAttractions, readHydroHistory,
      writePois, writeRoutes, writeAttractions, writeHydroHistory;
    rewrite bind_run, readJson_docs, readJson_run;
    match goal with
    | |- context [(?a =? ?b)%nat] => destruct (a =? b)%nat
    end; try reflexivity; run; (split; [reflexivity |]);
    match goal with
    | |- context [logOp ?t ?d ?w1] =>
        destruct (logOp_frame t d w1) as (E1 & E2 & E3 & _ & E5 & _);
        cbv zeta in E1, E2, E3, E5; rewrite ?E1, ?E2, ?E3, ?E5
    end; reflexivity.
Qed.

(** C4, as amended. Delete answers 404 and changes nothing when no stored
    document has the id; otherwise it answers 204 and stores the documents
    without that id, in their order: every document with the id is removed
    (exactly one when the id occurs once), and a later listing shows no
    document with the id. *)
Theorem delete_removes_every_match
  (localeCompare : string -> value -> Z) (lt_coerced : json -> json -> bool)
  (c : collection) (id : string) (w : World) :
  let before := stored c w in
  let reply := fst (delete_from c id w) in
  let w' := snd (delete_from c id w) in
  ((forall d, In d before -> has_id id d = false) ->
   reply = Send 404 not_found /\ w' = w) /\
  ((exists d, In d before /\ has_id id d = true) ->
   reply = End 204 /\
   file_of c (disk w') = Parsed (filter (fun x => negb (has_id id x)) before) /\
   List.length (stored c w') + List.length (filter (has_id id) before)
   = List.length before /\
   (forall d, In d (stored c w') -> has_id id d = false) /\
   (forall items,
      fst (list_from localeCompare lt_coerced c w') = Send 200 (JArr items) ->
      forall d, In (JObj d) items -> has_id id d = false)).
Proof.
  cbv zeta. pose proof (delete_from_run c id w) as Hrun. cbv zeta in Hrun.
  destruct (Nat.eqb_spec
              (List.length (filter (fun x => negb (has_id id x)) (stored c w)))
              (List.length (stored c w))) as [Hlen | Hlen].
  - rewrite filter_length_same in Hlen. split.
    + intros _. rewrite Hrun. split; reflexivity.
    + intros (d & Hd & Hid). apply Hlen in Hd. rewrite Hid in Hd. discriminate.
  - destruct Hrun as [Hr Hf]. split.
    + intros Hnone. exfalso. apply Hlen. apply filter_length_same.
      intros x Hx. rewrite (Hnone x Hx). reflexivity.
    + intros _.
      assert (Hs : stored c (snd (delete_from c id w))
                   = filter (fun x => negb (has_id id x)) (stored c w)).
      { unfold stored at 1. rewrite Hf. reflexivity. }
      rewrite Hs.
      assert (Hgone : forall d,
                 In d (filter (fun x => negb (has_id id x)) (stored c w)) ->
                 has_id id d = false).
      { intros d Hd. apply filter_In in Hd. destruct Hd as [_ Hd].
        apply negb_true_iff. exact Hd. }
      split; [exact Hr |]. split; [exact Hf |].
      split; [apply filter_length_split |].
      split; [exact Hgone |].
      intros items Hitems d Hd.
      destruct (list_from_permutation _ _ _ _ Hitems) as (_ & l & -> & Hperm).
      apply in_map_iff in Hd. destruct Hd as (d' & Heq & Hd').
      injection Heq as ->. apply Hgone. rewrite <- Hs.
      apply Permutation_in with (l := l); [| exact Hd'].
      apply Permutation_sym. exact Hperm.
Qed.

Example twin_world_pois :
  stored (Crud Poi) twin_world
  = [[("id", JStr "loyw3v28"); ("name", JStr "Pier");
      ("lng", JNum 120.1%float); ("lat", JNum 30.2%float);
      ("address", JStr ""); ("tags", JArr [])];
     [("id", JStr "loyw3v28"); ("name", JStr "Harbour");
      ("lng", JNum 120.2%float); ("lat", JNum 30.3%float);
      ("address", JStr ""); ("tags", JArr [])]].
Proof. vm_compute. reflexivity. Qed.

Lemma delete_removes_every_match_witness :
  fst (delete_from (Crud Poi) "loyw3v28" pier_world) = End 204 /\
  stored (Crud Poi) (snd (delete_from (Crud Poi) "loyw3v28" pier_world)) = [].
Proof.
  destruct (delete_removes_every_match
              (fun _ _ => 0%Z) (fun _ _ => false) (Crud Poi) "loyw3v28" pier_world)
    as [_ H].
  destruct H as (Hr & Hf & _).
  - eexists. split; [left; vm_compute; reflexivity | vm_compute; reflexivity].
  - split; [exact Hr |]. unfold stored at 1. rewrite Hf. reflexivity.
Defined.

(** C4 as stated fails: deleting an id that two documents share removes
    both, not exactly one. *)
Lemma delete_pois_removes_both_twins :
  List.length (stored (Crud Poi) twin_world) = 2 /\
  fst (delete_pois_id "loyw3v28" twin_world) = End 204 /\
  poisFile (disk (snd (delete_pois_id "loyw3v28" twin_world))) = Parsed [].
Proof. repeat split; vm_compute; reflexivity. Qed.

(** ** Sending a history record to the snapshot *)

Lemma get_obj_lit_absent (l : list (string * value)) (k : string) :
  ~ In k (map fst l) -> get (obj_lit l) k = None.
Proof.
  induction l as [| [k' [v |]] l IH]; intros H; simpl in *.
  - reflexivity.
  - destruct (String.eqb_spec k' k) as [-> | _]; [exfalso; auto | auto].
  - auto.
Qed.

Lemma get_obj_lit (l : list (string * value)) (k : string) :
  NoDup (map fst l) -> get (obj_lit l) k = field l k.
Proof.
  induction l as [| [k' [v |]] l IH]; intros H; simpl in *.
  - reflexivity.
  - inversion H; subst. destruct (String.eqb k' k); auto.
  - inversion H; subst. destruct (String.eqb_spec k' k) as [-> | _]; [| auto].
    apply get_obj_lit_absent. assumption.
Qed.

Lemma find_first (A : Type) (p : A -> bool) (l : list A) (idx : nat) (x : A) :
  nth_error l idx = Some x -> p x = true ->
  (forall j y, j < idx -> nth_error l j = Some y -> p y = false) ->
  find p l = Some x.
Proof.
  revert idx. induction l as [| a l IH]; intros [| idx] Hx Hp Hfirst;
    simpl in *; try discriminate.
  - injection Hx as ->. rewrite Hp. reflexivity.
  - rewrite (Hfirst 0 a); [| lia | reflexivity].
    apply (IH idx); [exact Hx | exact Hp |].
    intros j y Hj Hy. apply (Hfirst (S j)); [lia | exact Hy].
Qed.

Lemma find_none (A : Type) (p : A -> bool) (l : list A) :
  (forall x, In x l -> p x = false) -> find p l = None.
Proof.
  intros H. destruct (find p l) as [x |] eqn:E; [| reflexivity].
  apply find_some in E. destruct E as [Hx Hp].
  rewrite (H x Hx) in Hp. discriminate.
Qed.

Lemma assign_found_first (p : doc -> bool) (k : string) (v : value)
  (l : list doc) (idx : nat) (x : doc) :
  nth_error l idx = Some x -> p x = true ->
  (forall j y, j < idx -> nth_error l j = Some y -> p y = false) ->
  assign_found p k v l = set_at idx (assign x k v) l.
Proof.
  revert idx. induction l as [| a l IH]; intros [| idx] Hx Hp Hfirst;
    simpl in *; try discriminate.
  - injection Hx as ->. rewrite Hp. reflexivity.
  - rewrite (Hfirst 0 a); [| lia | reflexivity]. f_equal.
    apply (IH idx); [exact Hx | exact Hp |].
    intros j y Hj Hy. apply (Hfirst (S j)); [lia | exact Hy].
Qed.

Lemma get_snapshot_of (item : doc) (ts k : string) :
  get (snapshot_of item ts) k
  = field [("longitude", get item "longitude");
           ("latitude", get item "latitude");
           ("heading", get item "heading");
           ("temperature", get item "temperature");
           ("humidity", get item "humidity");
           ("pressure", get item "pressure");
           ("salinity", get item "salinity");
           ("shipDetected", Some (JBool (truthy (get item "shipDetected"))));
           ("shipType", Some (or_else (get item "shipType") (JStr "")));
           ("timestamp", Some (JStr ts))] k.
Proof.
  unfold snapshot_of. apply get_obj_lit.
  cbn [map fst]. repeat constructor; simpl; intuition discriminate.
Qed.

Lemma send_missing (id : string) (w : World) :
  find (has_id id) (stored HydroHistory w) = None ->
  post_hydro_history_id_send id w = (Send 404 not_found, w).
Proof.
  intros H. unfold stored in H. cbn [file_of] in H.
  unfold post_hydro_history_id_send, readHydroHistory.
  rewrite bind_run, readJson_docs, readJson_run, H. reflexivity.
Qed.

Lemma send_found (id : string) (w : World) (item : doc) :
  find (has_id id) (stored HydroHistory w) = Some item ->
  let ts := toISOString (clock w (reads w)) in
  let payload := snapshot_of item ts in
  fst (post_hydro_history_id_send id w)
  = Send 200 (JObj [("ok", JBool true); ("applied", JObj payload)]) /\
  hydrophoneFile (disk (snd (post_hydro_history_id_send id w)))
  = Parsed (JObj payload) /\
  hydroHistoryFile (disk (snd (post_hydro_history_id_send id w)))
  = Parsed (assign_found (has_id id) "sentAt" (Some (JStr ts))
                         (stored HydroHistory w)).
Proof.
  intros H. unfold stored in *. cbn [file_of] in *. cbv zeta.
  unfold post_hydro_history_id_send, readHydroHistory, writeHydrophone,
    writeHydroHistory.
  rewrite bind_run, readJson_docs, readJson_run, H. run.
  split; [reflexivity |].
  match goal with
  | |- context [logOp ?t ?d ?w1] =>
      destruct (logOp_frame t d w1) as (_ & _ & _ & E4 & E5 & _);
      cbv zeta in E4, E5; rewrite E4, E5
  end.
  rewrite get_snapshot_of. split; reflexivity.
Qed.

(** C2, as amended. Send on an id that some history record has takes the
    first record with that id: it replaces the snapshot with a document
    whose longitude, latitude, heading, temperature, humidity, pressure and
    salinity are that record's, whose shipDetected and shipType are that
    record's (as a boolean, and with the empty string for a falsy value),
    and whose timestamp is the time of the call; it sets that record's
    sentAt to the same timestamp and leaves its other fields and all other
    records alone.  On an id no record has it answers 404 and changes
    nothing. *)
Theorem send_applies_first_record (id : string) (w : World) :
  let history := stored HydroHistory w in
  let w' := snd (post_hydro_history_id_send id w) in
  let ts := toISOString (clock w (reads w)) in
  ((forall d, In d history -> has_id id d = false) ->
   post_hydro_history_id_send id w = (Send 404 not_found, w)) /\
  (forall (idx : nat) (item : doc),
     nth_error history idx = Some item -> has_id id item = true ->
     (forall j y, j < idx -> nth_error history j = Some y -> has_id id y = false) ->
     exists payload item' : doc,
       fst (post_hydro_history_id_send id w)
       = Send 200 (JObj [("ok", JBool true); ("applied", JObj payload)]) /\
       hydrophoneFile (disk w') = Parsed (JObj payload) /\
       (forall k, In k copied_keys -> get payload k = get item k) /\
       get payload "shipDetected"
       = Some (JBool (truthy (get item "shipDetected"))) /\
       (forall b, get item "shipDetected" = Some (JBool b) ->
                  get payload "shipDetected" = Some (JBool b)) /\
       get payload "shipType" = Some (or_else (get item "shipType") (JStr "")) /\
       (forall s, get item "shipType" = Some (JStr s) ->
                  get payload "shipType" = Some (JStr s)) /\
       get payload "timestamp" = Some (JStr ts) /\
       nth_error (stored HydroHistory w') idx = Some item' /\
       get item' "sentAt" = Some (JStr ts) /\
       (forall k, k <> "sentAt" -> get item' k = get item k) /\
       (forall j, j <> idx ->
                  nth_error (stored HydroHistory w') j = nth_error history j) /\
       List.length (stored HydroHistory w') = List.length history).
Proof.
  cbv zeta. split.
  - intros Hnone. apply send_missing. apply find_none. exact Hnone.
  - intros idx item Hitem Hid Hfirst.
    destruct (send_found id w (find_first _ _ Hitem Hid Hfirst))
      as (Hr & Hsnap & Hhist).
    rewrite (@assign_found_first _ _ _ _ _ _ Hitem Hid Hfirst) in Hhist.
    assert (Hs : stored HydroHistory (snd (post_hydro_history_id_send id w))
                 = set_at idx
                     (assign item "sentAt"
                        (Some (JStr (toISOString (clock w (reads w))))))
                     (stored HydroHistory w)).
    { unfold stored at 1. cbn [file_of]. rewrite Hhist. reflexivity. }
    rewrite Hs.
    assert (Hlt : idx < List.length (stored HydroHistory w)).
    { apply nth_error_Some. rewrite Hitem. discriminate. }
    eexists. eexists.
    split; [exact Hr |]. split; [exact Hsnap |].
    split.
    { intros k Hk. rewrite get_snapshot_of. simpl in Hk.
      destruct Hk as [<- | [<- | [<- | [<- | [<- | [<- | [<- | []]]]]]]];
        reflexivity. }
    split; [rewrite get_snapshot_of; reflexivity |].
    split.
    { intros b Hb. rewrite get_snapshot_of, Hb. reflexivity. }
    split; [rewrite get_snapshot_of; reflexivity |].
    split.
    { intros s Hs'. rewrite get_snapshot_of, Hs'. cbn. unfold or_else, truthy.
      destruct (String.eqb_spec s ""); subst; reflexivity. }
    split; [rewrite get_snapshot_of; reflexivity |].
    split; [apply nth_error_set_at_same; exact Hlt |].
    split; [apply get_set_same |].
    split.
    { intros k Hk. apply get_set_other. congruence. }
    split; [intros j Hj; apply nth_error_set_at_other; exact Hj |].
    apply set_at_length.
Qed.

(** The scenario of the spec: create a history record, then send it. *)
Example send_sounding :
  let w' := snd (post_hydro_history_id_send "loyw3v284fzy" sounding_world) in
  exists snapshot record : doc,
    hydrophoneFile (disk w') = Parsed (JObj snapshot) /\
    stored HydroHistory w' = [record] /\
    get snapshot "longitude" = Some (JNum 120.1%float) /\
    get snapshot "latitude" = Some (JNum 30.2%float) /\
    get snapshot "timestamp" = Some (JStr "2023-11-14T22:13:20.005Z") /\
    get record "sentAt" = Some (JStr "2023-11-14T22:13:20.005Z").
Proof. do 2 eexists. repeat split; vm_compute; reflexivity. Qed.

Lemma send_applies_first_record_witness :
  exists payload : doc,
    hydrophoneFile
      (disk (snd (post_hydro_history_id_send "loyw3v284fzy" sounding_world)))
    = Parsed (JObj payload) /\
    get payload "longitude" = Some (JNum 120.1%float) /\
    get payload "shipType" = Some (JStr "cargo") /\
    get payload "timestamp" = Some (JStr "2023-11-14T22:13:20.005Z").
Proof.
  destruct (send_applies_first_record "loyw3v284fzy" sounding_world) as [_ H].
  destruct (H 0 (hd [] (stored HydroHistory sounding_world)))
    as (payload & item' & _ & Hsnap & Hcopied & _ & _ & _ & Hty & Hts & _).
  - vm_compute. reflexivity.
  - vm_compute. reflexivity.
  - intros j y Hj. inversion Hj.
  - exists payload. split; [exact Hsnap |].
    split; [rewrite Hcopied; [vm_compute; reflexivity | left; reflexivity] |].
    split; [apply Hty; vm_compute; reflexivity | exact Hts].
Defined.

(** C2 as stated fails for a record that shares its id with an earlier
    one: send on its id applies the earlier record and leaves this one's
    sentAt null. *)
Lemma send_applies_earlier_twin :
  let w' := snd (post_hydro_history_id_send "loyw3v284fzy" twin_soundings) in
  exists first second snapshot second' : doc,
    stored HydroHistory twin_soundings = [first; second] /\
    has_id "loyw3v284fzy" second = true /\
    get second "longitude" = Some (JNum 121.5%float) /\
    hydrophoneFile (disk w') = Parsed (JObj snapshot) /\
    get snapshot "longitude" = Some (JNum 120.1%float) /\
    nth_error (stored HydroHistory w') 1 = Some second' /\
    get second' "sentAt" = Some JNull.
Proof. do 4 eexists. repeat split; vm_compute; reflexivity. Qed.

(** ** Identifiers *)






(** ** Sequences of requests on one entity *)

(** A create either refuses and changes nothing, or appends one document
    whose id is the base-36 string of the clock reading it took. *)
Lemma post_to_run (e : entity) (body : json) (w : World) :
  post_to e body w = (Send 400 invalid_payload, w) \/
  exists item : doc,
    fst (post_to e body w) = Send 201 (JObj item) /\
    file_of (Crud e) (disk (snd (post_to e body w)))
    = Parsed (stored (Crud e) w ++ [item])%list /\
    get item "id" = Some (JStr (toString36 (clock w (reads w)))) /\
    clock (snd (post_to e body w)) = clock w /\
    reads w < reads (snd (post_to e body w)).
Proof.
  unfold stored.
  destruct e; cbn [post_to file_of];
    unfold post_pois, post_routes, post_attractions;
    rewrite !prop_body_or_empty;
    match goal with
    | |- context [if ?b then _ else _] => destruct b
    end; try (left; reflexivity); right;
    unfold readPois, readRoutes, readAttractions,
      writePois, writeRoutes, writeAttractions; run;
    eexists; (split; [reflexivity |]);
    match goal with
    | |- context [logOp ?t ?d ?w1] =>
        destruct (logOp_frame t d w1) as (E1 & E2 & E3 & _);
        cbv zeta in E1, E2, E3; rewrite ?E1, ?E2, ?E3
    end;
    (split; [reflexivity |]); (split; [reflexivity |]);
    (split; [reflexivity |]); cbn; lia.
Qed.













(** ** Routes and their coordinates *)

(** The scenario of the spec: [POST /api/routes {name:"Loop"}] without coords. *)
Example post_routes_without_coords :
  post_routes (JObj [("name", JStr "Loop")]) ticking_world
  = (Send 400 invalid_payload, ticking_world).
Proof. reflexivity. Qed.

Lemma post_routes_run (body : json) (w : World) :
  post_routes body w = (Send 400 invalid_payload, w) \/
  exists item : doc,
    has_coords item = true /\
    routesFile (disk (snd (post_routes body w)))
    = Parsed (stored (Crud Route) w ++ [item])%list.
Proof.
  unfold stored. cbn [file_of]. unfold post_routes.
  rewrite !prop_body_or_empty.
  destruct (truthy (prop body "name")) eqn:En; [| left; reflexivity].
  destruct (prop body "name") as [n |]; [| discriminate].
  destruct (prop body "coords") as [[ | | | | [| c cs] |] |];
    try (left; reflexivity).
  right. cbn [negb orb is_array]. unfold readRoutes, writeRoutes. run.
  eexists. split.
  2: { match goal with
       | |- context [logOp ?t ?d ?w1] =>
           destruct (logOp_frame t d w1) as (_ & E2 & _); cbv zeta in E2;
           rewrite E2
       end. reflexivity. }
  reflexivity.
Qed.

Lemma serve_route_keeps_coords (r : request) (w : World) :
  leaves_coords r ->
  Forall (fun d => has_coords d = true) (stored (Crud Route) w) ->
  Forall (fun d => has_coords d = true) (stored (Crud Route) (snd (serve Route r w))).
Proof.
  intros Hr H. destruct r as [body | id body | id]; cbn [serve post_to put_to].
  - destruct (post_routes_run body w) as [E | (item & Hc & Hf)].
    + rewrite E. exact H.
    + unfold stored at 1. cbn [file_of]. rewrite Hf. cbn [docs_of].
      apply Forall_app. split; [exact H |]. constructor; [exact Hc | constructor].
  - destruct (findIndex (has_id id) (stored (Crud Route) w)) as [idx |] eqn:E.
    + destruct (put_to_found Route id body w E) as [_ Hf].
      destruct (findIndex_Some _ _ E) as (cur & Hcur & _).
      unfold stored at 1. cbn [put_to] in Hf. rewrite Hf. cbn [docs_of].
      rewrite (nth_error_nth _ _ _ Hcur).
      rewrite Forall_forall in *. intros d Hd.
      apply In_nth_error in Hd. destruct Hd as [j Hj].
      destruct (Nat.eq_dec j idx) as [-> | Hne].
      * rewrite nth_error_set_at_same in Hj
          by (apply nth_error_Some; rewrite Hcur; discriminate).
        injection Hj as <-. unfold has_coords. cbn [leaves_coords] in Hr.
        rewrite get_patch_same, Hr, get_patch_other by discriminate.
        apply (H cur). eapply nth_error_In. exact Hcur.
      * rewrite nth_error_set_at_other in Hj by exact Hne.
        apply H. eapply nth_error_In. exact Hj.
    + pose proof (put_to_missing Route id body w E) as Hm. cbn [put_to] in Hm.
      rewrite Hm. exact H.
  - pose proof (delete_from_run (Crud Route) id w) as Hd. cbv zeta in Hd.
    destruct (_ =? _)%nat in Hd.
    + rewrite Hd. exact H.
    + destruct Hd as [_ Hd]. unfold stored at 1. rewrite Hd. cbn [docs_of].
      rewrite Forall_forall in *. intros d Hin. apply filter_In in Hin.
      apply H. apply Hin.
Qed.

Lemma routes_keep_coords_without_coords_updates (rs : list request)
  (w0 : World) :
  stored (Crud Route) w0 = [] -> Forall leaves_coords rs ->
  Forall (fun d => has_coords d = true)
         (stored (Crud Route) (serve_all Route rs w0)).
Proof.
  intros Hempty Hrs.
  assert (H0 : Forall (fun d => has_coords d = true) (stored (Crud Route) w0))
    by (rewrite Hempty; constructor).
  clear Hempty. revert w0 H0.
  induction Hrs as [| r rs Hr _ IH]; intros w0 H0; cbn [serve_all].
  - exact H0.
  - apply IH. apply serve_route_keeps_coords; assumption.
Qed.

(** C9 at its failing input: after a valid create, an update whose body
    holds [coords: []] is stored as it is, so a stored route has an empty
    coords array. *)
Theorem put_routes_stores_empty_coords :
  let w := serve_all Route
             [Create loop; Update "loyw3v28" (JObj [("coords", JArr [])])]
             ticking_world in
  stored (Crud Route) w
  = [[("id", JStr "loyw3v28"); ("name", JStr "Loop"); ("coords", JArr []);
      ("createdAt", JStr "2023-11-14T22:13:20.001Z")]] /\
  Forall (fun d => has_coords d = false) (stored (Crud Route) w).
Proof.
  split; [vm_compute; reflexivity |].
  vm_compute. constructor; [reflexivity | constructor].
Qed.

(** ** Order of the listings *)

Lemma ltb_lt (x y : string) : String.ltb x y = true <-> String_as_OT.lt x y.
Proof.
  unfold String.ltb, String_as_OT.lt.
  change String_as_OT.compare with String.compare.
  destruct (String.compare x y); split; congruence.
Qed.

Lemma ltb_false_trans (x y z : string) :
  String.ltb x y = false -> String.ltb y z = false -> String.ltb x z = false.
Proof.
  intros Hxy Hyz. destruct (String.ltb x z) eqn:Hxz; [| reflexivity].
  apply ltb_lt in Hxz.
  destruct (String_as_OT.compare_spec x y) as [Heq | Hlt | Hgt].
  - unfold String_as_OT.eq in Heq. subst y. apply ltb_lt in Hxz. congruence.
  - apply ltb_lt in Hlt. congruence.
  - assert (Hyz' : String_as_OT.lt y z)
      by (eapply (@StrictOrder_Transitive _ _ String_as_OT.lt_strorder); eassumption).
    apply ltb_lt in Hyz'. congruence.
Qed.

Lemma ltb_asym (x y : string) : String.ltb x y = true -> String.ltb y x = false.
Proof.
  intros Hxy. destruct (String.ltb y x) eqn:Hyx; [| reflexivity].
  apply ltb_lt in Hxy, Hyx. exfalso.
  apply (@StrictOrder_Irreflexive _ _ String_as_OT.lt_strorder x).
  eapply (@StrictOrder_Transitive _ _ String_as_OT.lt_strorder); eassumption.
Qed.

Lemma not_older_trans (a b c : doc) :
  not_older a b -> not_older b c -> not_older a c.
Proof.
  intros (x & y & Hx & Hy & Hxy) (y' & z & Hy' & Hz & Hyz).
  rewrite Hy in Hy'. injection Hy' as <-.
  exists x, z. repeat split; try assumption.
  eapply ltb_false_trans; eassumption.
Qed.

Section RoutesOrder.
Variable lt_coerced : json -> json -> bool.

Lemma by_createdAt_desc_strings (x y : doc) (kx ky : string) :
  get x "createdAt" = Some (JStr kx) -> get y "createdAt" = Some (JStr ky) ->
  by_createdAt_desc lt_coerced x y
  = Some (if String.ltb kx ky then 1%Z else (-1)%Z).
Proof.
  intros Hx Hy. unfold by_createdAt_desc. rewrite Hx, Hy. reflexivity.
Qed.

Lemma insert_by_createdAt (x : doc) (l : list doc) :
  is_string (get x "createdAt") = true ->
  Forall (fun d => is_string (get d "createdAt") = true) l ->
  StronglySorted not_older l ->
  exists s, insert (by_createdAt_desc lt_coerced) x l = Some s /\
            StronglySorted not_older s.
Proof.
  intros Hx Hl Hs. induction l as [| y l IH]; cbn [insert].
  - eexists. split; [reflexivity |]. repeat constructor.
  - inversion Hl as [| ? ? Hy Hl']; subst.
    inversion Hs as [| ? ? Hs' Hall]; subst.
    destruct (get x "createdAt") as [[ | | | kx | |] |] eqn:Ex; try discriminate.
    destruct (get y "createdAt") as [[ | | | ky | |] |] eqn:Ey; try discriminate.
    rewrite (by_createdAt_desc_strings _ _ Ex Ey).
    destruct (String.ltb kx ky) eqn:E; cbn [Z.leb Z.compare].
    + destruct (IH Hl' Hs') as (s & Hins & Hsorted).
      rewrite Hins.
      eexists. split; [reflexivity |]. constructor; [exact Hsorted |].
      eapply Permutation_Forall.
      * apply insert_perm with (cmp := by_createdAt_desc lt_coerced).
        exact Hins.
      * constructor; [| exact Hall].
        exists ky, kx. repeat split; try assumption. apply ltb_asym. exact E.
    + eexists. split; [reflexivity |]. constructor; [exact Hs |].
      assert (Hxy : not_older x y) by (exists kx, ky; repeat split; assumption).
      constructor; [exact Hxy |].
      eapply Forall_impl; [| exact Hall]. intros c. apply not_older_trans. exact Hxy.
Qed.

Lemma sort_by_createdAt (l : list doc) :
  Forall (fun d => is_string (get d "createdAt") = true) l ->
  exists s, sort (by_createdAt_desc lt_coerced) l = Some s /\
            Permutation l s /\ StronglySorted not_older s.
Proof.
  induction l as [| x l IH]; intros Hl; cbn [sort].
  - exists []. repeat split; constructor.
  - inversion Hl as [| ? ? Hx Hl']; subst.
    destruct (IH Hl') as (s & Hs & Hperm & Hsorted). rewrite Hs.
    destruct (insert_by_createdAt x (l := s) Hx) as (s' & Hins & Hsorted').
    + eapply Permutation_Forall; eassumption.
    + exact Hsorted.
    + exists s'. split; [exact Hins |]. split; [| exact Hsorted'].
      eapply perm_trans; [apply perm_skip; exact Hperm |].
      apply insert_perm with (cmp := by_createdAt_desc lt_coerced). exact Hins.
Qed.

(** Routes and history records whose [createdAt] are strings, as create
    writes them, are listed newest first, all of them, and nothing is
    written. *)
Lemma list_newest_first (c : collection) (w : World)
  (localeCompare : string -> value -> Z) :
  c = Crud Route \/ c = HydroHistory ->
  Forall (fun d => is_string (get d "createdAt") = true) (stored c w) ->
  exists s, list_from localeCompare lt_coerced c w
            = (Send 200 (JArr (map JObj s)), w) /\
            Permutation (stored c w) s /\ StronglySorted not_older s.
Proof.
  intros Hc Hl. rewrite list_from_run.
  destruct (sort_by_createdAt Hl) as (s & Hs & Hperm & Hsorted).
  exists s. destruct Hc as [-> | ->]; cbn [comparefn_of]; rewrite Hs;
    repeat split; assumption.
Qed.
End RoutesOrder.

Section NamesOrder.
Variable localeCompare : string -> value -> Z.

Lemma insert_by_name (x : doc) (l : list doc) :
  is_string (get x "name") = true ->
  exists s, insert (by_name localeCompare) x l = Some s.
Proof.
  intros Hx. induction l as [| y l IH]; cbn [insert].
  - eexists. reflexivity.
  - unfold by_name at 1.
    destruct (get x "name") as [[ | | | kx | |] |]; try discriminate.
    destruct (localeCompare kx (get y "name") <=? 0)%Z.
    + eexists. reflexivity.
    + destruct IH as [s ->]. eexists. reflexivity.
Qed.

(** POIs and attractions whose names are all strings are listed, all of
    them, and nothing is written. *)
Lemma list_by_name (c : collection) (w : World)
  (lt_coerced : json -> json -> bool) :
  c = Crud Poi \/ c = Crud Attraction ->
  Forall (fun d => is_string (get d "name") = true) (stored c w) ->
  exists s, list_from localeCompare lt_coerced c w
            = (Send 200 (JArr (map JObj s)), w) /\
            Permutation (stored c w) s.
Proof.
  intros Hc Hl. rewrite list_from_run.
  assert (Hsort : exists s, sort (by_name localeCompare) (stored c w) = Some s).
  { induction Hl as [| x l Hx _ IH]; cbn [sort]; [eexists; reflexivity |].
    destruct IH as [s ->]. apply insert_by_name. exact Hx. }
  destruct Hsort as [s Hs]. exists s.
  destruct Hc as [-> | ->]; cbn [comparefn_of]; rewrite Hs;
    (split; [reflexivity |]);
    apply sort_perm with (cmp := by_name localeCompare); exact Hs.
Qed.
End NamesOrder.

(** C10 at its failing input: with two stored POIs whose names are
    numbers, which create accepts, the comparator calls [localeCompare] on
    a number and the listing ends in a TypeError instead of sending the
    stored documents; the same happens after updates have set the names
    to null. *)
Theorem get_pois_fails_on_names_that_are_not_strings
  (localeCompare : string -> value -> Z) :
  let w := serve_all Poi [Create (numbered 5); Create (numbered 6)]
                     ticking_world in
  let w' := serve_all Poi [Create pier; Create harbour;
                           Update "loyw3v28" (JObj [("name", JNull)]);
                           Update "loyw3v2b" (JObj [("name", JNull)])]
                      ticking_world in
  map (fun d => get d "name") (stored (Crud Poi) w)
  = [Some (JNum 5%float); Some (JNum 6%float)] /\
  fst (get_pois localeCompare w) = Uncaught /\
  map (fun d => get d "name") (stored (Crud Poi) w')
  = [Some JNull; Some JNull] /\
  fst (get_pois localeCompare w') = Uncaught.
Proof.
  repeat split; vm_compute; reflexivity.
Qed.


(** * Further properties *)

(** ** What a callback does to the world *)

Lemma or_else_do_clock (v : value) (w : World) :
  clock (snd (or_else_do v now_iso w)) = clock w.
Proof.
  unfold or_else_do. destruct v as [x |]; [| reflexivity].
  destruct (truthy (Some x)); reflexivity.
Qed.

Arguments or_else_do : simpl never.

Section CallbackOutcome.
Variable localeCompare : string -> value -> Z.
Variable lt_coerced : json -> json -> bool.

Ltac branch :=
  match goal with
  | |- context [if ?b then _ else _] => destruct b eqn:?
  | |- context [match findIndex ?p ?l with _ => _ end] =>
      destruct (findIndex p l) eqn:?
  | |- context [match find ?p ?l with _ => _ end] => destruct (find p l) eqn:?
  | |- context [match sort ?f ?l with _ => _ end] => destruct (sort f l) eqn:?
  end.

Ltac untouched := left; split; [reflexivity | first [left; reflexivity | right; reflexivity]].

Ltac same :=
  first [reflexivity
        | unfold writeJson, Date_iso, Date_now, Math_random36, bind, ret;
          cbn; rewrite ?or_else_do_disk, ?or_else_do_clock; reflexivity].

Ltac logged :=
  right; run;
  match goal with
  | |- context [logOp ?t ?d ?w1] => exists t, d, w1
  end;
  split; [reflexivity |]; split; [reflexivity |]; split; [reflexivity |];
  split; [same |]; split; [same |]; split; [same |];
  split; [intros [[] |] Hc; first [same | exfalso; apply Hc; reflexivity]
         | intros Hs; first [discriminate Hs | same]].

(** A callback either leaves the world as it is (every GET, every 400 and
    404), or succeeds and ends with one [logOp], having written at most
    its own collection and the snapshot. *)
Lemma callback_outcome (ep : endpoint) (w : World) :
  (snd (callback localeCompare lt_coerced ep w) = w /\
   (log_type ep = None \/
    rejected (fst (callback localeCompare lt_coerced ep w)) = true)) \/
  exists (t : string) (detail : doc) (w1 : World),
    log_type ep = Some t /\
    succeeded (fst (callback localeCompare lt_coerced ep w)) = true /\
    snd (callback localeCompare lt_coerced ep w) = snd (logOp t detail w1) /\
    logsFile (disk w1) = logsFile (disk w) /\
    statsFile (disk w1) = statsFile (disk w) /\
    clock w1 = clock w /\
    (forall c, target ep <> Some c -> file_of c (disk w1) = file_of c (disk w)) /\
    (writes_snapshot ep = false ->
     hydrophoneFile (disk w1) = hydrophoneFile (disk w)).
Proof.
  destruct ep as [c | e body | e id body | c id | | body | body | id | |];
    cbn [callback].
  - rewrite list_from_run. untouched.
  - destruct e; cbn [post_to]; unfold post_pois, post_routes, post_attractions;
      rewrite !prop_body_or_empty; branch; try untouched;
      unfold readPois, readRoutes, readAttractions,
        writePois, writeRoutes, writeAttractions; logged.
  - destruct e; cbn [put_to];
      unfold put_pois_id, put_routes_id, put_attractions_id,
        readPois, readRoutes, readAttractions,
        writePois, writeRoutes, writeAttractions;
      rewrite bind_run, readJson_run; branch; try untouched; logged.
  - destruct c as [[] |]; cbn [delete_from];
      unfold delete_pois_id, delete_routes_id, delete_attractions_id,
        delete_hydro_history_id, delete_in,
        readPois, readRoutes, readAttractions, readHydroHistory,
        writePois, writeRoutes, writeAttractions, writeHydroHistory;
      rewrite bind_run, readJson_run; branch; try untouched; logged.
  - untouched.
  - unfold post_hydrophone_update. rewrite !prop_body_or_empty.
    branch; try untouched. unfold writeHydrophone. logged.
  - unfold post_hydro_history. rewrite !prop_body_or_empty.
    branch; try untouched. unfold readHydroHistory, writeHydroHistory. logged.
  - unfold post_hydro_history_id_send, readHydroHistory, writeHydrophone,
      writeHydroHistory.
    rewrite bind_run, readJson_run; branch; try untouched; logged.
  - untouched.
  - untouched.
Qed.
End CallbackOutcome.

Lemma succeeded_not_rejected (r : Reply) :
  succeeded r = true -> rejected r = false.
Proof.
  destruct r as [status body | status |]; cbn [succeeded rejected];
    [| reflexivity | reflexivity].
  intros H. apply orb_true_iff in H. apply orb_false_iff.
  destruct H as [H | H]; apply Nat.eqb_eq in H; subst status; split; reflexivity.
Qed.

Section Requests.
Variable localeCompare : string -> value -> Z.
Variable lt_coerced : json -> json -> bool.

(** X1. A GET route, and any route that answers 400 or 404, leaves the
    whole world as it found it: no file is written, no log entry made, the
    clock and the random source are not consulted. *)
Theorem unsuccessful_request_changes_nothing (ep : endpoint) (w : World) :
  log_type ep = None \/
  rejected (fst (callback localeCompare lt_coerced ep w)) = true ->
  snd (callback localeCompare lt_coerced ep w) = w.
Proof.
  intros H.
  destruct (callback_outcome localeCompare lt_coerced ep w)
    as [[Hw _] | (t & d & w1 & Ht & Hs & _)]; [exact Hw |].
  destruct H as [H | H].
  - rewrite H in Ht. discriminate.
  - rewrite (succeeded_not_rejected _ Hs) in H. discriminate.
Qed.

(** X2. A route writes at most its own collection, the snapshot when it is
    the snapshot update or send, and the log: every other collection, the
    snapshot otherwise, and the counters keep their content, and the clock
    readings to come are the same. *)
Theorem callback_writes_only_its_own_files (ep : endpoint) (w : World) :
  let w' := snd (callback localeCompare lt_coerced ep w) in
  (forall c, target ep <> Some c -> file_of c (disk w') = file_of c (disk w)) /\
  (writes_snapshot ep = false ->
   hydrophoneFile (disk w') = hydrophoneFile (disk w)) /\
  statsFile (disk w') = statsFile (disk w) /\
  clock w' = clock w.
Proof.
  cbv zeta.
  destruct (callback_outcome localeCompare lt_coerced ep w)
    as [[Hw _] | (t & d & w1 & _ & _ & Hw & _ & Hstats & Hclock & Hfiles & Hsnap)].
  - rewrite Hw. repeat split.
  - rewrite Hw.
    destruct (logOp_frame t d w1) as (E1 & E2 & E3 & E4 & E5 & E6).
    cbv zeta in E1, E2, E3, E4, E5, E6.
    split; [| split; [| split]].
    + intros c Hc. rewrite <- (Hfiles c Hc).
      destruct c as [[] |]; cbn [file_of]; assumption.
    + intros Hs. rewrite E4. apply Hsnap. exact Hs.
    + rewrite E6. exact Hstats.
    + rewrite <- Hclock. reflexivity.
Qed.

(** X3. A route that succeeds with a write puts exactly one entry, of the
    route's own type, at the head of the log, in front of the entries that
    were there, cut to 500; any other request leaves the log as it was. *)
Theorem successful_write_logs_one_entry (ep : endpoint) (w : World) :
  let reply := fst (callback localeCompare lt_coerced ep w) in
  let w' := snd (callback localeCompare lt_coerced ep w) in
  (forall t, succeeded reply = true -> log_type ep = Some t ->
     exists entry : doc,
       get entry "type" = Some (JStr t) /\
       logsFile (disk w') = Parsed (firstn 500 (entry :: logs_of w))) /\
  (succeeded reply = false \/ log_type ep = None -> logs_of w' = logs_of w).
Proof.
  cbv zeta.
  destruct (callback_outcome localeCompare lt_coerced ep w)
    as [[Hw Hwhy] | (t & d & w1 & Ht & Hs & Hw & Hlogs & _ & Hclock & _)].
  - split; [| intros _; rewrite Hw; reflexivity].
    intros t Hs Ht. destruct Hwhy as [Hnone | Hrej].
    + rewrite Hnone in Ht. discriminate.
    + rewrite (succeeded_not_rejected _ Hs) in Hrej. discriminate.
  - split.
    + intros t' _ Ht'. rewrite Ht in Ht'. injection Ht' as <-.
      rewrite Hw, logOp_disk. cbn [put_logs logsFile].
      rewrite cap500_firstn. unfold logs_of. rewrite Hlogs.
      eexists. split; [| reflexivity]. reflexivity.
    + intros [H | H]; [rewrite Hs in H | rewrite Ht in H]; discriminate.
Qed.
End Requests.

(** ** Counting requests *)

Lemma counter_bump_same (stats : list (string * float)) (key : string) :
  counter (bump stats key) key = Some (add_one (count_of stats key)).
Proof.
  unfold count_of. induction stats as [| [k n] stats IH]; cbn [bump counter].
  - rewrite String.eqb_refl. reflexivity.
  - destruct (String.eqb k key) eqn:E; cbn [counter]; rewrite E;
      [reflexivity | exact IH].
Qed.

Lemma counter_bump_other (stats : list (string * float)) (key k : string) :
  k <> key -> counter (bump stats key) k = counter stats k.
Proof.
  intros Hne. induction stats as [| [k0 n] stats IH]; cbn [bump counter].
  - destruct (String.eqb_spec key k); [congruence | reflexivity].
  - destruct (String.eqb_spec k0 key) as [-> | Hk0]; cbn [counter].
    + destruct (String.eqb_spec key k); [congruence | reflexivity].
    + destruct (String.eqb k0 k); [reflexivity | exact IH].
Qed.

Lemma keys_bump (stats : list (string * float)) (key : string) :
  map fst (bump stats key)
  = if existsb (String.eqb key) (map fst stats) then map fst stats
    else (map fst stats ++ [key])%list.
Proof.
  induction stats as [| [k n] stats IH]; cbn [bump map fst existsb app];
    [reflexivity |].
  rewrite (String.eqb_sym key k).
  destruct (String.eqb k key); cbn [map fst orb]; [reflexivity |].
  rewrite IH. destruct (existsb (String.eqb key) (map fst stats)); reflexivity.
Qed.

Lemma incRequest_world (pathname method : string) (w : World) :
  snd (incRequest pathname method w)
  = with_disk (put_stats (Parsed (bump (stats_of w) (method ++ " " ++ pathname)))
                         (disk w)) w.
Proof.
  unfold incRequest, bind, readJson, writeJson, stats_of. cbn [fst snd].
  destruct (statsFile (disk w)); reflexivity.
Qed.

(** X4. Counting the same method and path [n] times adds one to that key's
    counter [n] times in double arithmetic, from 0 when the key or the
    whole file was missing, and the key is there afterwards; every other
    key keeps its counter and no other file, nor the clock, is touched. *)
Theorem incRequest_counts (n : nat) (pathname method : string) (w : World) :
  let key := method ++ " " ++ pathname in
  let w' := snd (times n (incRequest pathname method) w) in
  count_of (stats_of w') key = Nat.iter n add_one (count_of (stats_of w) key) /\
  (n <> 0%nat -> counter (stats_of w') key <> None) /\
  (forall k, k <> key -> counter (stats_of w') k = counter (stats_of w) k) /\
  (forall c, file_of c (disk w') = file_of c (disk w)) /\
  logsFile (disk w') = logsFile (disk w) /\
  hydrophoneFile (disk w') = hydrophoneFile (disk w) /\
  reads w' = reads w.
Proof.
  cbv zeta. revert w. induction n as [| n IH]; intros w.
  - cbn [times ret snd Nat.iter nat_rect]. repeat split. intros H. now elim H.
  - cbn [times]. rewrite bind_run. cbv beta.
    destruct (IH (snd (incRequest pathname method w)))
      as (Hkey & Hin & Hother & Hfiles & Hlogs & Hsnap & Hreads).
    rewrite incRequest_world in *.
    assert (Hone : counter
                     (stats_of
                        (with_disk
                           (put_stats
                              (Parsed (bump (stats_of w) (method ++ " " ++ pathname)))
                              (disk w)) w)) (method ++ " " ++ pathname)
                   = Some (add_one (count_of (stats_of w)
                                             (method ++ " " ++ pathname)))).
    { unfold stats_of at 1. cbn [with_disk disk put_stats statsFile].
      apply counter_bump_same. }
    split; [| split; [| split; [| split; [| split; [| split]]]]].
    + rewrite Hkey, Nat.iter_succ_r. f_equal.
      unfold count_of at 1. rewrite Hone. reflexivity.
    + intros _. destruct n as [| n]; [| apply Hin; discriminate].
      unfold times, ret. cbn [snd]. rewrite Hone. discriminate.
    + intros k Hk. rewrite (Hother k Hk).
      unfold stats_of at 1. cbn [with_disk disk put_stats statsFile].
      apply counter_bump_other. exact Hk.
    + intros c. rewrite Hfiles. destruct c as [[] |]; reflexivity.
    + rewrite Hlogs. reflexivity.
    + rewrite Hsnap. reflexivity.
    + rewrite Hreads. reflexivity.
Qed.

Lemma add_one_two_53 : add_one two_53 = two_53.
Proof. reflexivity. Qed.

(** X5. Counting is exact only below 2^53: a counter that has reached
    2^53 stays there however many more requests are counted, since the
    next integer is not a double. *)
Theorem incRequest_stops_at_two_53 (n : nat) (pathname method : string)
  (w : World) :
  counter (stats_of w) (method ++ " " ++ pathname) = Some two_53 ->
  counter (stats_of (snd (times n (incRequest pathname method) w)))
          (method ++ " " ++ pathname) = Some two_53.
Proof.
  revert w. induction n as [| n IH]; intros w H; [exact H |].
  cbn [times]. rewrite bind_run. cbv beta. apply IH.
  rewrite incRequest_world. unfold stats_of at 1.
  cbn [with_disk disk put_stats statsFile].
  rewrite counter_bump_same. unfold count_of. rewrite H.
  rewrite add_one_two_53. reflexivity.
Qed.

(** ** The counting middleware in front of a callback *)

Section Middleware.
Variable localeCompare : string -> value -> Z.
Variable lt_coerced : json -> json -> bool.

Ltac branch_on_stored :=
  match goal with
  | |- context [if ?b then _ else _] => destruct b eqn:?
  | |- context [match findIndex ?p ?l with _ => _ end] =>
      destruct (findIndex p l) eqn:?
  | |- context [match find ?p ?l with _ => _ end] => destruct (find p l) eqn:?
  | |- context [match sort ?f ?l with _ => _ end] => destruct (sort f l) eqn:?
  end.

(** No callback but [GET /api/stats] looks at the counters. *)
Lemma callback_ignores_stats (ep : endpoint)
  (c : content (list (string * float)))
  (w : World) :
  ep <> GetStats ->
  callback localeCompare lt_coerced ep (with_disk (put_stats c (disk w)) w)
  = (fst (callback localeCompare lt_coerced ep w),
     with_disk
       (put_stats c (disk (snd (callback localeCompare lt_coerced ep w))))
       (snd (callback localeCompare lt_coerced ep w))).
Proof.
  intros Hep.
  destruct ep as [k | e body | e id body | k id | | body | body | id | |];
    cbn [callback]; try congruence.
  - rewrite !list_from_run. destruct k as [[] |]; reflexivity.
  - destruct e; cbn [post_to]; unfold post_pois, post_routes, post_attractions;
      rewrite !prop_body_or_empty; branch_on_stored; reflexivity.
  - destruct e; cbn [put_to];
      unfold put_pois_id, put_routes_id, put_attractions_id,
        readPois, readRoutes, readAttractions;
      rewrite !bind_run, !readJson_run, !readJson_docs;
      cbn [with_disk disk put_stats poisFile routesFile attractionsFile];
      branch_on_stored; reflexivity.
  - destruct k as [[] |]; cbn [delete_from];
      unfold delete_pois_id, delete_routes_id, delete_attractions_id,
        delete_hydro_history_id, delete_in,
        readPois, readRoutes, readAttractions, readHydroHistory;
      rewrite !bind_run, !readJson_run, !readJson_docs;
      cbn [with_disk disk put_stats poisFile routesFile attractionsFile
             hydroHistoryFile];
      branch_on_stored; reflexivity.
  - reflexivity.
  - unfold post_hydrophone_update. rewrite !prop_body_or_empty.
    branch_on_stored; [reflexivity |].
    unfold or_else_do.
    destruct (prop body "timestamp") as [x |]; [destruct (truthy (Some x)) |];
      reflexivity.
  - unfold post_hydro_history. rewrite !prop_body_or_empty.
    branch_on_stored; [reflexivity |].
    unfold or_else_do.
    destruct (truthy (Some (default (prop body "timestamp") JNull)));
      reflexivity.
  - unfold post_hydro_history_id_send, readHydroHistory.
    rewrite !bind_run, !readJson_run, !readJson_docs.
    cbn [with_disk disk put_stats hydroHistoryFile].
    branch_on_stored; reflexivity.
  - reflexivity.
Qed.
End Middleware.

Section Handling.
Variable localeCompare : string -> value -> Z.
Variable lt_coerced : json -> json -> bool.

Lemma handle_run (r : Request) (w : World) :
  handle localeCompare lt_coerced r w
  = callback localeCompare lt_coerced (route r)
      (with_disk
         (put_stats
            (Parsed (bump (stats_of w) (req_method r ++ " " ++ req_path r)))
            (disk w)) w).
Proof.
  unfold handle, counted. rewrite bind_run, incRequest_world. reflexivity.
Qed.

(** X6. Whatever the route but [GET /api/stats], the counting middleware
    does not change what the callback answers nor what it writes; it adds
    one to the counter of the request's method and path, and only to it,
    also when the callback answers 400 or 404 or throws. *)
Theorem counting_does_not_interfere (r : Request) (w : World) :
  route r <> GetStats ->
  let key := req_method r ++ " " ++ req_path r in
  let counted_world := snd (handle localeCompare lt_coerced r w) in
  let plain_world := snd (callback localeCompare lt_coerced (route r) w) in
  fst (handle localeCompare lt_coerced r w)
  = fst (callback localeCompare lt_coerced (route r) w) /\
  (forall c, file_of c (disk counted_world) = file_of c (disk plain_world)) /\
  logsFile (disk counted_world) = logsFile (disk plain_world) /\
  hydrophoneFile (disk counted_world) = hydrophoneFile (disk plain_world) /\
  counter (stats_of counted_world) key
  = Some (add_one (count_of (stats_of w) key)) /\
  (forall k, k <> key ->
             counter (stats_of counted_world) k = counter (stats_of w) k).
Proof.
  intros Hep. cbv zeta. rewrite handle_run, (callback_ignores_stats _ _ _ _ Hep).
  cbn [fst snd]. unfold stats_of at 1 3.
  cbn [with_disk disk put_stats statsFile logsFile hydrophoneFile].
  split; [reflexivity |]. split; [intros [[] |]; reflexivity |].
  split; [reflexivity |]. split; [reflexivity |].
  split; [apply counter_bump_same
         | intros k Hk; apply counter_bump_other; exact Hk].
Qed.

Lemma firstn_app_firstn (A : Type) (m k : nat) (a b : list A) :
  m <= k -> firstn m (a ++ firstn k b)%list = firstn m (a ++ b)%list.
Proof.
  revert m k. induction a as [| x a IH]; intros m k Hmk.
  - cbn [app]. rewrite firstn_firstn. f_equal. lia.
  - destruct m as [| m]; [reflexivity |]. cbn [app]. rewrite !firstn_cons.
    f_equal. apply IH. lia.
Qed.

Lemma handle_logs (r : Request) (w : World) :
  logs_of (snd (handle localeCompare lt_coerced r w)) = logs_of w \/
  exists entry : doc,
    logs_of (snd (handle localeCompare lt_coerced r w))
    = firstn 500 (entry :: logs_of w).
Proof.
  rewrite handle_run.
  set (w1 := with_disk _ w).
  assert (Hw1 : logs_of w1 = logs_of w) by reflexivity.
  destruct (callback_outcome localeCompare lt_coerced (route r) w1)
    as [[Hw _] | (t & d & w0 & _ & _ & Hw & Hlogs & _)]; rewrite Hw.
  - left. exact Hw1.
  - right. unfold logs_of at 1. rewrite logOp_disk. cbn [put_logs logsFile docs_of].
    rewrite cap500_firstn, Hlogs. fold (logs_of w1). rewrite Hw1.
    eexists. reflexivity.
Qed.

(** X7. Over any sequence of requests the log only grows at its head and
    loses entries only at its tail: what the log holds afterwards is the
    first 500 of some new entries, at most one per request, followed by
    the entries it held before; in particular it never exceeds 500
    entries once it is within 500. *)
Theorem log_is_append_only (eps : list Request) (w : World) :
  List.length (logs_of w) <= 500 ->
  exists added : list doc,
    logs_of (handle_all localeCompare lt_coerced eps w)
    = firstn 500 (added ++ logs_of w)%list /\
    List.length added <= List.length eps /\
    List.length (logs_of (handle_all localeCompare lt_coerced eps w)) <= 500.
Proof.
  revert w. induction eps as [| ep eps IH]; intros w Hlen; cbn [handle_all].
  - exists []. cbn [app]. rewrite firstn_all2 by exact Hlen.
    repeat split; [apply Nat.le_refl | exact Hlen].
  - destruct (handle_logs ep w) as [Hsame | (entry & Hnew)].
    + destruct (IH (snd (handle localeCompare lt_coerced ep w)))
        as (added & Hlog & Hadded & Hcap); [rewrite Hsame; exact Hlen |].
      exists added. rewrite Hlog, Hsame.
      repeat split; [cbn [List.length]; lia | apply firstn_le_length].
    + destruct (IH (snd (handle localeCompare lt_coerced ep w)))
        as (added & Hlog & Hadded & Hcap);
        [rewrite Hnew; apply firstn_le_length |].
      exists (added ++ [entry])%list. rewrite Hlog, Hnew.
      rewrite firstn_app_firstn by apply Nat.le_refl.
      rewrite <- app_assoc. cbn [app].
      repeat split;
        [rewrite length_app; cbn [List.length]; lia | apply firstn_le_length].
Qed.
End Handling.

(** ** Creating routes, attractions and history records *)

Lemma logOp_keeps (type : string) (detail : doc) (w : World) :
  forall c, file_of c (disk (snd (logOp type detail w))) = file_of c (disk w).
Proof.
  intros c. destruct (logOp_frame type detail w) as (E1 & E2 & E3 & _ & E5 & _).
  cbv zeta in E1, E2, E3, E5. destruct c as [[] |]; cbn [file_of]; assumption.
Qed.

(** X8. Route create answers 400 and changes nothing exactly when [name]
    is falsy or [coords] is not a non-empty array; otherwise it answers
    201 with the document it appends to the stored routes, whose id is the
    clock reading in base 36, whose name and coords are the given ones in
    stored form, the coords still a non-empty array, and whose createdAt
    is the ISO time of the next reading. *)
Theorem post_routes_validation (body : json) (w : World) :
  let name := prop body "name" in
  let coords := prop body "coords" in
  (truthy name = false \/ nonempty_array coords = false ->
   post_routes body w = (Send 400 invalid_payload, w)) /\
  (truthy name = true -> nonempty_array coords = true ->
   exists item : doc,
     fst (post_routes body w) = Send 201 (JObj item) /\
     routesFile (disk (snd (post_routes body w)))
     = Parsed (stored (Crud Route) w ++ [item])%list /\
     map fst item = ["id"; "name"; "coords"; "createdAt"] /\
     get item "id" = Some (JStr (toString36 (clock w (reads w)))) /\
     get item "name" = option_map stored_form name /\
     get item "coords" = option_map stored_form coords /\
     nonempty_array (get item "coords") = true /\
     get item "createdAt" = Some (JStr (toISOString (clock w (S (reads w)))))).
Proof.
  cbv zeta. unfold nonempty_array, stored. cbn [file_of].
  unfold post_routes. rewrite !prop_body_or_empty. split.
  - intros [H | H]; [rewrite H; reflexivity |].
    destruct (prop body "coords") as [[ | | | | [| c cs] |] |];
      try discriminate; rewrite ?orb_true_r; reflexivity.
  - intros Hn Hc. rewrite Hn.
    destruct (prop body "name") as [n |]; [| discriminate].
    destruct (prop body "coords") as [[ | | | | [| c cs] |] |];
      try discriminate.
    cbn [negb orb is_array]. unfold readRoutes, writeRoutes. run.
    eexists. split; [reflexivity |].
    rewrite (logOp_keeps _ _ _ (Crud Route)). cbn [file_of].
    repeat split.
Qed.

(** X9. Attraction create answers 400 and changes nothing exactly when
    [name] is falsy; otherwise it answers 201 with the appended document:
    lng and lat are stored as given, of any type, in stored form, and are
    left out of the document when the input has none; address, tags and
    desc are the input's in stored form, or [""], [[]] and [""] when
    absent. *)
Theorem post_attractions_validation (body : json) (w : World) :
  (truthy (prop body "name") = false ->
   post_attractions body w = (Send 400 invalid_payload, w)) /\
  (truthy (prop body "name") = true ->
   exists item : doc,
     fst (post_attractions body w) = Send 201 (JObj item) /\
     attractionsFile (disk (snd (post_attractions body w)))
     = Parsed (stored (Crud Attraction) w ++ [item])%list /\
     get item "id" = Some (JStr (toString36 (clock w (reads w)))) /\
     (forall k, In k ["name"; "lng"; "lat"] ->
                get item k = option_map stored_form (prop body k)) /\
     get item "address"
     = Some (stored_form (default (prop body "address") (JStr ""))) /\
     get item "tags" = Some (stored_form (default (prop body "tags") (JArr []))) /\
     get item "desc" = Some (stored_form (default (prop body "desc") (JStr ""))) /\
     (forall k, In k (map fst item) ->
                In k ["id"; "name"; "lng"; "lat"; "address"; "tags"; "desc"])).
Proof.
  unfold stored. cbn [file_of]. unfold post_attractions.
  rewrite !prop_body_or_empty. split.
  - intros H. rewrite H. reflexivity.
  - intros Hn. rewrite Hn. cbn [negb].
    unfold readAttractions, writeAttractions. run.
    exists (attraction_item (toString36 (clock w (reads w))) body).
    split; [reflexivity |].
    rewrite (logOp_keeps _ _ _ (Crud Attraction)). cbn [file_of].
    split; [reflexivity |]. split; [reflexivity |].
    unfold attraction_item. rewrite as_stored_keys.
    assert (Hnd : NoDup (map fst
              [("id", Some (JStr (toString36 (clock w (reads w)))));
               ("name", prop body "name"); ("lng", prop body "lng");
               ("lat", prop body "lat");
               ("address", Some (default (prop body "address") (JStr "")));
               ("tags", Some (default (prop body "tags") (JArr [])));
               ("desc", Some (default (prop body "desc") (JStr "")))])).
    { cbn [map fst]. repeat constructor; simpl; intuition discriminate. }
    split.
    { intros k Hk. rewrite get_as_stored, (get_obj_lit _ k Hnd). simpl in Hk.
      destruct Hk as [<- | [<- | [<- | []]]]; reflexivity. }
    split; [rewrite get_as_stored, (get_obj_lit _ _ Hnd); reflexivity |].
    split; [rewrite get_as_stored, (get_obj_lit _ _ Hnd); reflexivity |].
    split; [rewrite get_as_stored, (get_obj_lit _ _ Hnd); reflexivity |].
    intros k.
    destruct (prop body "name"), (prop body "lng"), (prop body "lat");
      cbn [obj_lit map fst]; intros Hk; simpl in *; intuition.
Qed.

Lemma truthy_default_false (v : value) :
  truthy (Some (default v (JBool false))) = truthy v.
Proof. destruct v; reflexivity. Qed.

Lemma or_else_default (v : value) (d e : json) :
  truthy (Some d) = false -> or_else (Some (default v d)) e = or_else v e.
Proof.
  intros H. destruct v as [x |]; [reflexivity |].
  unfold or_else, default. rewrite H. reflexivity.
Qed.

(** X10. History create answers 400 and changes nothing exactly when
    longitude or latitude is not a number; otherwise it answers 201 with
    the appended record: its id is the clock reading in base 36 followed
    by characters 2 to 5 of the random string, the position and the five
    sensor values are stored as given, of any type, in stored form, or
    null when absent, shipDetected is the truthiness of what was given,
    shipType and name fall back to the empty string and the placeholder
    when falsy, timestamp to the current time, and sentAt is null. *)
Theorem post_hydro_history_validation (body : json) (w : World) :
  (is_number (prop body "longitude") = false \/
   is_number (prop body "latitude") = false ->
   post_hydro_history body w = (Send 400 invalid_position, w)) /\
  (is_number (prop body "longitude") = true ->
   is_number (prop body "latitude") = true ->
   exists item : doc,
     fst (post_hydro_history body w) = Send 201 (JObj item) /\
     hydroHistoryFile (disk (snd (post_hydro_history body w)))
     = Parsed (stored HydroHistory w ++ [item])%list /\
     get item "id"
     = Some (JStr (toString36 (clock w (reads w))
                   ++ slice_2_6 (random w (draws w)))) /\
     get item "longitude" = option_map stored_form (prop body "longitude") /\
     get item "latitude" = option_map stored_form (prop body "latitude") /\
     (forall k, In k numeric_keys ->
                get item k = Some (stored_form (default (prop body k) JNull))) /\
     get item "shipDetected" = Some (JBool (truthy (prop body "shipDetected"))) /\
     get item "shipType"
     = Some (stored_form (or_else (prop body "shipType") (JStr ""))) /\
     get item "name"
     = Some (stored_form (or_else (prop body "name") (JStr "未命名"))) /\
     get item "timestamp"
     = Some (stored_form
               (or_else (prop body "timestamp")
                        (JStr (toISOString (clock w (S (reads w))))))) /\
     is_string (get item "createdAt") = true /\
     get item "sentAt" = Some JNull).
Proof.
  unfold stored. cbn [file_of]. unfold post_hydro_history.
  rewrite !prop_body_or_empty. split.
  - intros [H | H]; rewrite H; rewrite ?orb_true_r; reflexivity.
  - intros Hg Ht. rewrite Hg, Ht. cbn [negb orb].
    destruct (prop body "longitude") as [g |]; [| discriminate].
    destruct (prop body "latitude") as [t |]; [| discriminate].
    unfold readHydroHistory, writeHydroHistory. run.
    eexists. split; [reflexivity |].
    rewrite (logOp_keeps _ _ _ HydroHistory). cbn [file_of].
    split; [reflexivity |]. split; [reflexivity |].
    split; [reflexivity |]. split; [reflexivity |].
    split.
    { intros k Hk. simpl in Hk.
      destruct Hk as [<- | [<- | [<- | [<- | [<- | []]]]]]; reflexivity. }
    cbn [get as_stored map obj_lit String.eqb Ascii.eqb Bool.eqb stored_form].
    rewrite truthy_default_false, !or_else_default by reflexivity.
    split; [reflexivity |]. split; [reflexivity |]. split; [reflexivity |].
    split; [| split; reflexivity].
    rewrite or_else_do_value, or_else_default by reflexivity. reflexivity.
Qed.

(** ** Round trips *)

Lemma get_hydrophone_latest_object (d : doc) (w : World) :
  hydrophoneFile (disk w) = Parsed (JObj d) ->
  get_hydrophone_latest w = (Send 200 (JObj d), w).
Proof.
  intros H. unfold get_hydrophone_latest, readHydrophone, bind, readJson, ret.
  rewrite H. reflexivity.
Qed.

(** X11. What the snapshot update or a send has stored is what
    [GET /api/hydrophone/latest] answers next: the ten-key document built
    from the request body, or from the history record that was sent. *)
Theorem latest_returns_the_stored_snapshot (w : World) :
  (forall body,
     is_number (prop body "longitude") = true ->
     is_number (prop body "latitude") = true ->
     let w' := snd (post_hydrophone_update body w) in
     get_hydrophone_latest w'
     = (Send 200 (JObj (snapshot_payload body (toISOString (clock w (reads w))))),
        w')) /\
  (forall id item,
     find (has_id id) (stored HydroHistory w) = Some item ->
     let w' := snd (post_hydro_history_id_send id w) in
     get_hydrophone_latest w'
     = (Send 200 (JObj (snapshot_of item (toISOString (clock w (reads w))))),
        w')).
Proof.
  split.
  - intros body Hg Ht w'.
    destruct (post_hydrophone_update_accepts body w Hg Ht) as [_ Hd].
    apply get_hydrophone_latest_object. exact Hd.
  - intros id item Hfind w'.
    destruct (send_found id w Hfind) as (_ & Hd & _).
    apply get_hydrophone_latest_object. exact Hd.
Qed.

Lemma filter_all (A : Type) (p : A -> bool) (l : list A) :
  (forall x, In x l -> p x = true) -> filter p l = l.
Proof.
  induction l as [| a l IH]; intros H; simpl; [reflexivity |].
  rewrite (H a) by (left; reflexivity). f_equal. apply IH.
  intros x Hx. apply H. right. exact Hx.
Qed.

(** X12. Deleting the id a create has just returned answers 204 and
    brings the collection back to the documents it held before the create,
    in their order, provided none of them had that id. *)
Theorem delete_undoes_create (e : entity) (body : json) (w : World)
  (item : doc) (id : string) :
  fst (post_to e body w) = Send 201 (JObj item) ->
  get item "id" = Some (JStr id) ->
  (forall d, In d (stored (Crud e) w) -> has_id id d = false) ->
  let w1 := snd (post_to e body w) in
  fst (delete_from (Crud e) id w1) = End 204 /\
  file_of (Crud e) (disk (snd (delete_from (Crud e) id w1)))
  = Parsed (stored (Crud e) w).
Proof.
  intros Hr Hid Hfresh w1.
  destruct (post_to_run e body w) as [E | (item' & Hr' & Hf & _)].
  { rewrite E in Hr. discriminate. }
  rewrite Hr' in Hr. injection Hr as ->.
  assert (Hs : stored (Crud e) w1 = (stored (Crud e) w ++ [item])%list).
  { unfold stored at 1. unfold w1. rewrite Hf. reflexivity. }
  assert (Hitem : has_id id item = true).
  { unfold has_id. rewrite Hid. apply String.eqb_refl. }
  assert (Hfilter : filter (fun x => negb (has_id id x)) (stored (Crud e) w1)
                    = stored (Crud e) w).
  { rewrite Hs, filter_app. cbn [filter]. rewrite Hitem. cbn [negb].
    rewrite app_nil_r. apply filter_all. intros x Hx.
    rewrite (Hfresh x Hx). reflexivity. }
  pose proof (delete_from_run (Crud e) id w1) as Hrun. cbv zeta in Hrun.
  rewrite Hfilter in Hrun.
  destruct (Nat.eqb_spec (List.length (stored (Crud e) w))
                         (List.length (stored (Crud e) w1))) as [Hlen | _];
    [| exact Hrun].
  rewrite Hs, length_app in Hlen. cbn [List.length] in Hlen. lia.
Qed.
